(** * robustness.datasets: dataset descriptors, argument overriding and
      architecture lookup

    A shallow embedding of [src/robustness/datasets.py].  Python values are
    a small dynamically typed universe, dictionaries are insertion-ordered
    association lists, Python sets are [gset string], exceptions are an
    error monad, and what the module imports ([imagenet_models],
    [loaders.make_loaders], [constants]) is the interface [Collaborators]. *)

From Stdlib Require Import ZArith QArith String List.
From stdpp Require Import base decidable option numbers list gmap sets strings.

Local Open Scope string_scope.
Local Set Warnings "-register-all".

(** ** Runtime types *)

(** The classes the module's values belong to.  [TUser name base] is a class
    defined elsewhere by single inheritance from [base]. *)
Inductive pytype : Type :=
  | TObject
  | TNoneType
  | TBool
  | TInt
  | TFloat
  | TStr
  | TTuple
  | TList
  | TDict
  | TTensor          (* torch.Tensor *)
  | TCompose         (* torchvision.transforms.Compose *)
  | TFunction
  | TType
  | TUser (name : string) (base : pytype).

Global Instance pytype_eq_dec : EqDecision pytype.
Proof. solve_decision. Defined.

(** Method resolution order: the class itself, then its ancestors.  [bool]
    derives from [int]; every class derives from [object]. *)
Fixpoint mro (t : pytype) : list pytype :=
  t :: match t with
       | TObject => []
       | TBool => [TInt; TObject]
       | TUser _ base => mro base
       | _ => [TObject]
       end.

Definition issubclass (t u : pytype) : bool := bool_decide (u ∈ mro t).

(** ** The label mapping helper *)

(** A coarse group: explicit fine-grained label indices, or the half-open
    range [lo, hi). *)
Inductive group : Type :=
  | GIndices (ids : list Z)
  | GRange (lo hi : Z).

Record LabelMapping : Type := mkLabelMapping {
  lm_table : list (option nat);   (* fine label -> coarse group, None = unmapped *)
  lm_group_count : nat
}.

(** ** Values *)

Inductive value : Type :=
  | VNone
  | VBool (b : bool)
  | VInt (n : Z)
  | VFloat (q : Q)
  | VStr (s : string)
  | VTuple (items : list value)
  | VList (items : list value)
  | VDict (items : list (string * value))
  | VTensor (data : list Q)           (* ch.tensor([...]) *)
  | VCompose (name : string)          (* a preprocessing pipeline, opaque *)
  | VLabelMapping (m : LabelMapping)  (* what get_label_mapping returns *)
  | VClass (t : pytype)               (* a class object, e.g. custom_class *)
  | VInstance (name : string) (base : pytype).

(** [type(v)] *)
Definition type_of (v : value) : pytype :=
  match v with
  | VNone => TNoneType
  | VBool _ => TBool
  | VInt _ => TInt
  | VFloat _ => TFloat
  | VStr _ => TStr
  | VTuple _ => TTuple
  | VList _ => TList
  | VDict _ => TDict
  | VTensor _ => TTensor
  | VCompose _ => TCompose
  | VLabelMapping _ => TFunction
  | VClass _ => TType
  | VInstance name base => TUser name base
  end.

(** [isinstance(v, t)] *)
Definition isinstance (v : value) (t : pytype) : bool := issubclass (type_of v) t.

(** [v is not None] *)
Definition is_not_None (v : value) : bool :=
  match v with VNone => false | _ => true end.

(** ** Exceptions *)

Inductive exn : Type :=
  | MissingRequiredArgs (missing_args : gset string)
      (* ValueError("Missing required args %s" % missing_args) *)
  | UnrecognizedArgs (extra_args : gset string)
      (* ValueError("Got unrecognized args %s" % extra_args) *)
  | ArgumentShouldHaveType (k : string) (req_type : pytype)
      (* ValueError(f"Argument {k} should have type {req_type}") *)
  | NoPytorchPretrained
      (* ValueError("Dataset doesn't support pytorch_pretrained") *)
  | GroupOutOfRange
      (* the label mapper's error on an index outside the domain *)
  | KeyError (k : string)
  | AttributeError (name : string)
  | MultipleValues (name : string)
      (* TypeError: got multiple values for argument <name> *)
  | NotImplementedError.

(** The exception class of each error. *)
Inductive exn_class : Type :=
  | CValueError | CKeyError | CAttributeError | CTypeError | CNotImplementedError.

Definition class_of_exn (e : exn) : exn_class :=
  match e with
  | MissingRequiredArgs _ | UnrecognizedArgs _ | ArgumentShouldHaveType _ _
  | NoPytorchPretrained | GroupOutOfRange => CValueError
  | KeyError _ => CKeyError
  | AttributeError _ => CAttributeError
  | MultipleValues _ => CTypeError
  | NotImplementedError => CNotImplementedError
  end.

Inductive result (A : Type) : Type :=
  | Ok (a : A)
  | Raise (e : exn).
Arguments Ok {A} a.
Arguments Raise {A} e.

Global Instance result_ret : MRet result := @Ok.
Global Instance result_bind : MBind result := λ A B f m,
  match m with
  | Ok a => f a
  | Raise e => Raise e
  end.

Definition raises {A} (m : result A) : Prop := ∃ e, m = Raise e.

(** ** Dictionaries *)

(** A Python [dict] with string keys: bindings in insertion order. *)
Definition dict : Type := list (string * value).

Definition dict_keys (d : dict) : list string := d.*1.

(** [d.get(k)] *)
Fixpoint dict_get (d : dict) (k : string) : option value :=
  match d with
  | [] => None
  | (k', v) :: d' => if decide (k' = k) then Some v else dict_get d' k
  end.

(** [d[k]] *)
Definition dict_item (d : dict) (k : string) : result value :=
  match dict_get d k with
  | Some v => Ok v
  | None => Raise (KeyError k)
  end.

(** [d[k] = v]: an existing key keeps its position, a new one is appended. *)
Fixpoint dict_set (d : dict) (k : string) (v : value) : dict :=
  match d with
  | [] => [(k, v)]
  | (k', v') :: d' =>
      if decide (k' = k) then (k, v) :: d' else (k', v') :: dict_set d' k v
  end.

(** [d.update(e)] *)
Definition dict_update (d e : dict) : dict :=
  fold_left (λ acc kv, dict_set acc kv.1 kv.2) e d.

(** [{**a, **b}] *)
Definition dict_merge (a b : dict) : dict := dict_update (dict_update [] a) b.

(** The well-formed dictionaries: no key is bound twice. *)
Definition wf_dict (d : dict) : Prop := NoDup (dict_keys d).

Global Instance wf_dict_dec d : Decision (wf_dict d).
Proof. unfold wf_dict. apply _. Defined.

(** ** The label mapper *)

Definition group_labels (g : group) : list Z :=
  match g with
  | GIndices ids => ids
  | GRange lo hi => seqZ lo (hi - lo)
  end.

Definition group_in_domain (domain_size : nat) (g : group) : bool :=
  match g with
  | GIndices ids => forallb (λ i, bool_decide (0 ≤ i < Z.of_nat domain_size)%Z) ids
  | GRange lo hi => bool_decide (0 ≤ lo ∧ hi ≤ Z.of_nat domain_size)%Z
  end.

Definition assign_group (table : list (option nat)) (g : nat) (labels : list Z)
    : list (option nat) :=
  fold_left (λ t i, <[Z.to_nat i := Some g]> t) labels table.

Fixpoint assign_groups (table : list (option nat)) (g : nat) (groups : list group)
    : list (option nat) :=
  match groups with
  | [] => table
  | gr :: rest => assign_groups (assign_group table g (group_labels gr)) (S g) rest
  end.

(** Modelled from the spec: [LabelMapper.Build], the label-mapping algorithm
    behind [get_label_mapping] of robustness/tools/helpers.py, which is not
    under src/.  The table starts all unmapped, groups are applied in
    declaration order (the last write wins), [group_count = len(groups)], and
    a group outside [0, domain_size) is an error.  How the group names are
    formed is not described, so they are left out. *)
Definition Build (groups : list group) (domain_size : nat) : result LabelMapping :=
  if forallb (group_in_domain domain_size) groups
  then Ok {| lm_table := assign_groups (replicate domain_size None) 0 groups;
             lm_group_count := length groups |}
  else Raise GroupOutOfRange.

(** The number of coarse groups of a label mapping value. *)
Definition group_count (v : value) : option nat :=
  match v with
  | VLabelMapping m => Some (lm_group_count m)
  | _ => None
  end.

(** ** The collaborators *)

(** What [datasets.py] imports and does not define: the architecture
    registry [imagenet_models.__dict__], [loaders.make_loaders],
    [constants.RESTRICTED_IMAGNET_RANGES], and the size of the fine-grained
    label space the label mapper works on.  A builder of the registry is
    called with [num_classes] and, when the caller passes it, [pretrained]. *)
Class Collaborators : Type := {
  Model : Type;
  Loaders : Type;
  imagenet_models : string → option (value → option bool → result Model);
  loaders_make_loaders : dict → result Loaders;
  RESTRICTED_IMAGNET_RANGES : list group;
  domain_size : nat
}.

(** Modelled from the spec: [get_label_mapping] of robustness/tools/helpers.py,
    which is not under src/; it builds the mapping of the given groups. *)
Definition get_label_mapping `{Collaborators} (ds_name : string) (groups : list group)
    : result value :=
  m ← Build groups domain_size; mret (VLabelMapping m).

(** ** Objects *)

Inductive klass : Type :=
  | DataSetClass
  | ImageNetClass
  | Places365Class
  | RestrictedImageNetClass
  | CustomImageNetClass.

Global Instance klass_eq_dec : EqDecision klass.
Proof. solve_decision. Defined.

(** An instance: its class and its attribute table [__dict__]. *)
Record object : Type := mkObject {
  class_of : klass;
  attrs : dict
}.

(** A fresh instance, before [__init__] runs. *)
Definition new (cls : klass) : object := mkObject cls [].

Definition setattr (self : object) (name : string) (v : value) : object :=
  mkObject (class_of self) (dict_set (attrs self) name v).

Definition getattr (self : object) (name : string) : result value :=
  match dict_get (attrs self) name with
  | Some v => Ok v
  | None => Raise (AttributeError name)
  end.

(** Binding of a call [f(self, ds_name, data_path, **kw)]: a keyword that
    names an already bound positional parameter is a [TypeError], on the
    first such keyword; otherwise the keywords are collected as [**kwargs]. *)
Definition bind_keywords (positional : list string) (kw : dict) : result dict :=
  match List.find (λ k, bool_decide (k ∈ positional)) (dict_keys kw) with
  | Some k => Raise (MultipleValues k)
  | None => Ok kw
  end.

(** The parameters of [DataSet.__init__] bound before [**kwargs]: a keyword
    of the call may not name one of them again. *)
Definition init_positional : list string := ["self"; "ds_name"; "data_path"].

(** Options of [make_loaders], after the defaults are filled in. *)
Record loader_options : Type := mkOptions {
  workers : value;
  batch_size : value;
  data_aug : value;
  subset : value;
  subset_start : value;
  subset_type : value;
  val_batch_size : value;
  only_val : value;
  shuffle_train : value;
  shuffle_val : value;
  subset_seed : value
}.

Definition default_options (workers batch_size : value) : loader_options :=
  {| workers := workers; batch_size := batch_size;
     data_aug := VBool true; subset := VNone; subset_start := VInt 0;
     subset_type := VStr "rand"; val_batch_size := VNone;
     only_val := VBool false; shuffle_train := VBool true;
     shuffle_val := VBool true; subset_seed := VNone |}.

(** ** class DataSet *)

Module DataSet.

Definition required_args : list string :=
  ["num_classes"; "mean"; "std"; "transform_train"; "transform_test"].
Definition optional_args : list string :=
  ["custom_class"; "label_mapping"; "custom_class_args"].

(** [{k: kwargs.get(k, None) for k in required_args + optional_args}] *)
Definition final_kwargs (kwargs : dict) : dict :=
  dict_update []
    ((λ k, (k, default VNone (dict_get kwargs k))) <$> (required_args ++ optional_args)%list).

(** [DataSet.__init__(self, ds_name, data_path, **kwargs)], called with
    [self], [ds_name] and [data_path] given by position and the keywords
    [kwargs]. *)
Definition __init__ (self : object) (ds_name data_path : value) (kwargs : dict)
    : result object :=
  kwargs ← bind_keywords init_positional kwargs;
  let missing_args : gset string :=
    list_to_set required_args ∖ list_to_set (dict_keys kwargs) in
  if decide (0 < size missing_args)%nat then Raise (MissingRequiredArgs missing_args)
  else
    let extra_args : gset string :=
      list_to_set (dict_keys kwargs) ∖ list_to_set (required_args ++ optional_args)%list in
    if decide (0 < size extra_args)%nat then Raise (UnrecognizedArgs extra_args)
    else
      let self := setattr self "ds_name" ds_name in
      let self := setattr self "data_path" data_path in
      Ok (mkObject (class_of self) (dict_update (attrs self) (final_kwargs kwargs))).

(** The loop of [override_args] over the keys of [kwargs]. *)
Fixpoint check_types (default_args kwargs : dict) (ks : list string) : result unit :=
  match ks with
  | [] => Ok tt
  | k :: ks' =>
      match dict_get default_args k with
      | None => check_types default_args kwargs ks'
      | Some dv =>
          let req_type := type_of dv in
          (* reading kwargs[k] cannot fail for a key of kwargs, so it is
             read before the test of the default *)
          ov ← dict_item kwargs k;
          let no_nones := is_not_None dv && is_not_None ov in
          if no_nones && negb (isinstance ov req_type)
          then Raise (ArgumentShouldHaveType k req_type)
          else check_types default_args kwargs ks'
      end
  end.

(** [DataSet.override_args(self, default_args, kwargs)]; [self] is unused. *)
Definition override_args (default_args kwargs : dict) : result dict :=
  _ ← check_types default_args kwargs (dict_keys kwargs);
  mret (dict_merge default_args kwargs).

(** [DataSet.get_model(self, arch, pretrained)] *)
Definition get_model `{Collaborators} (self : object) (arch : string) (pretrained : bool)
    : result Model :=
  Raise NotImplementedError.

(** The keyword arguments [make_loaders] passes on. *)
Definition make_loaders_kwargs (self : object) (o : loader_options) : result dict :=
  transform_train ← getattr self "transform_train";
  transform_test ← getattr self "transform_test";
  let transforms := VTuple [transform_train; transform_test] in
  data_path ← getattr self "data_path";
  ds_name ← getattr self "ds_name";
  label_mapping ← getattr self "label_mapping";
  custom_class ← getattr self "custom_class";
  custom_class_args ← getattr self "custom_class_args";
  mret [("workers", workers o);
        ("batch_size", batch_size o);
        ("transforms", transforms);
        ("data_path", data_path);
        ("data_aug", data_aug o);
        ("dataset", ds_name);
        ("label_mapping", label_mapping);
        ("custom_class", custom_class);
        ("val_batch_size", val_batch_size o);
        ("subset", subset o);
        ("subset_start", subset_start o);
        ("subset_type", subset_type o);
        ("only_val", only_val o);
        ("seed", subset_seed o);
        ("shuffle_train", shuffle_train o);
        ("shuffle_val", shuffle_val o);
        ("custom_class_args", custom_class_args)].

(** [DataSet.make_loaders(self, workers, batch_size, ...)] *)
Definition make_loaders `{Collaborators} (self : object) (o : loader_options)
    : result Loaders :=
  kw ← make_loaders_kwargs self o; loaders_make_loaders kw.

End DataSet.

(** ** The variants *)

(** [imagenet_models.__dict__[arch]] *)
Definition imagenet_models_item `{Collaborators} (arch : string)
    : result (value → option bool → result Model) :=
  match imagenet_models arch with
  | Some builder => Ok builder
  | None => Raise (KeyError arch)
  end.

Module ImageNet.

Definition ds_kwargs : dict :=
  [("num_classes", VInt 1000);
   ("mean", VTensor [485 # 1000; 456 # 1000; 406 # 1000]%Q);
   ("std", VTensor [229 # 1000; 224 # 1000; 225 # 1000]%Q);
   ("custom_class", VNone);
   ("label_mapping", VNone);
   ("transform_train", VCompose "TRAIN_TRANSFORMS_IMAGENET");
   ("transform_test", VCompose "TEST_TRANSFORMS_IMAGENET")].

(** [ImageNet.__init__(self, data_path, **kwargs)] *)
Definition __init__ (self : object) (data_path : value) (kwargs : dict)
    : result object :=
  kwargs ← bind_keywords ["self"; "data_path"] kwargs;
  ds_kwargs ← DataSet.override_args ds_kwargs kwargs;
  DataSet.__init__ self (VStr "imagenet") data_path ds_kwargs.

(** [ImageNet.get_model(self, arch, pretrained)] *)
Definition get_model `{Collaborators} (self : object) (arch : string) (pretrained : bool)
    : result Model :=
  builder ← imagenet_models_item arch;
  num_classes ← getattr self "num_classes";
  builder num_classes (Some pretrained).

End ImageNet.

Module Places365.

Definition ds_kwargs : dict :=
  [("num_classes", VInt 365);
   ("mean", VTensor [485 # 1000; 456 # 1000; 406 # 1000]%Q);
   ("std", VTensor [229 # 1000; 224 # 1000; 225 # 1000]%Q);
   ("custom_class", VNone);
   ("label_mapping", VNone);
   ("transform_train", VCompose "TRAIN_TRANSFORMS_DEFAULT(256)");
   ("transform_test", VCompose "TEST_TRANSFORMS_DEFAULT(256)")].

(** [Places365.__init__(self, data_path, **kwargs)] *)
Definition __init__ (self : object) (data_path : value) (kwargs : dict)
    : result object :=
  kwargs ← bind_keywords ["self"; "data_path"] kwargs;
  ds_kwargs ← DataSet.override_args ds_kwargs kwargs;
  DataSet.__init__ self (VStr "places365") data_path ds_kwargs.

(** [Places365.get_model(self, arch, pretrained)] *)
Definition get_model `{Collaborators} (self : object) (arch : string) (pretrained : bool)
    : result Model :=
  builder ← imagenet_models_item arch;
  num_classes ← getattr self "num_classes";
  builder num_classes (Some pretrained).

End Places365.

(** The defaults the two grouped variants share, given the group list and
    the mapping built from it. *)
Definition grouped_ds_kwargs (groups : list group) (label_mapping : value) : dict :=
  [("num_classes", VInt (Z.of_nat (length groups)));
   ("mean", VTensor [4717 # 10000; 4499 # 10000; 3837 # 10000]%Q);
   ("std", VTensor [2600 # 10000; 2516 # 10000; 2575 # 10000]%Q);
   ("custom_class", VNone);
   ("label_mapping", label_mapping);
   ("transform_train", VCompose "TRAIN_TRANSFORMS_IMAGENET");
   ("transform_test", VCompose "TEST_TRANSFORMS_IMAGENET")].

Module RestrictedImageNet.

(** [RestrictedImageNet.__init__(self, data_path, **kwargs)] *)
Definition __init__ `{Collaborators} (self : object) (data_path : value) (kwargs : dict)
    : result object :=
  kwargs ← bind_keywords ["self"; "data_path"] kwargs;
  let ds_name := "restricted_imagenet" in
  label_mapping ← get_label_mapping ds_name RESTRICTED_IMAGNET_RANGES;
  let ds_kwargs := grouped_ds_kwargs RESTRICTED_IMAGNET_RANGES label_mapping in
  ds_kwargs ← DataSet.override_args ds_kwargs kwargs;
  DataSet.__init__ self (VStr ds_name) data_path ds_kwargs.

(** [RestrictedImageNet.get_model(self, arch, pretrained)] *)
Definition get_model `{Collaborators} (self : object) (arch : string) (pretrained : bool)
    : result Model :=
  if pretrained then Raise NoPytorchPretrained
  else
    builder ← imagenet_models_item arch;
    num_classes ← getattr self "num_classes";
    builder num_classes None.

End RestrictedImageNet.

Module CustomImageNet.

(** [CustomImageNet.__init__(self, data_path, custom_grouping, **kwargs)] *)
Definition __init__ `{Collaborators} (self : object) (data_path : value)
    (custom_grouping : list group) (kwargs : dict) : result object :=
  kwargs ← bind_keywords ["self"; "data_path"; "custom_grouping"] kwargs;
  let ds_name := "custom_imagenet" in
  label_mapping ← get_label_mapping ds_name custom_grouping;
  let ds_kwargs := grouped_ds_kwargs custom_grouping label_mapping in
  ds_kwargs ← DataSet.override_args ds_kwargs kwargs;
  DataSet.__init__ self (VStr ds_name) data_path ds_kwargs.

(** [CustomImageNet.get_model(self, arch, pretrained)] *)
Definition get_model `{Collaborators} (self : object) (arch : string) (pretrained : bool)
    : result Model :=
  if pretrained then Raise NoPytorchPretrained
  else
    builder ← imagenet_models_item arch;
    num_classes ← getattr self "num_classes";
    builder num_classes None.

End CustomImageNet.

(** [self.get_model(arch, pretrained)], resolved on the class of [self]. *)
Definition get_model `{Collaborators} (self : object) (arch : string) (pretrained : bool)
    : result Model :=
  match class_of self with
  | DataSetClass => DataSet.get_model self arch pretrained
  | ImageNetClass => ImageNet.get_model self arch pretrained
  | Places365Class => Places365.get_model self arch pretrained
  | RestrictedImageNetClass => RestrictedImageNet.get_model self arch pretrained
  | CustomImageNetClass => CustomImageNet.get_model self arch pretrained
  end.

(** [DATASETS] *)
Definition DATASETS : list (string * klass) :=
  [("imagenet", ImageNetClass);
   ("restricted_imagenet", RestrictedImageNetClass);
   ("custom_imagenet", CustomImageNetClass)].

(** ** Argument dictionaries as shared objects *)

(** The dictionaries a caller holds are objects in a store; a reference is
    an index into it.  A dict display allocates a new object. *)
Abbreviation store := (list dict).

Definition alloc (σ : store) (d : dict) : store * nat := ((σ ++ [d])%list, length σ).

(** [override_args] on references: it reads both arguments and returns a
    reference to the dictionary [{**default_args, **kwargs}] builds. *)
Definition override_args_ref (σ : store) (default_args kwargs : nat)
    : result (store * nat) :=
  merged ← DataSet.override_args (σ !!! default_args) (σ !!! kwargs);
  mret (alloc σ merged).

(** ** The properties under study *)

(** The override of key [k] is rejected: both values are set and the
    override is not an instance of the default's type. *)
Definition offending (default_args kwargs : dict) (k : string) : Prop :=
  ∃ dv ov, dict_get default_args k = Some dv ∧ dict_get kwargs k = Some ov
    ∧ dv ≠ VNone ∧ ov ≠ VNone ∧ isinstance ov (type_of dv) = false.

(** Both values of key [k] are set and their runtime types differ. *)
Definition type_differs (default_args kwargs : dict) (k : string) : Prop :=
  ∃ dv ov, dict_get default_args k = Some dv ∧ dict_get kwargs k = Some ov
    ∧ dv ≠ VNone ∧ ov ≠ VNone ∧ type_of ov ≠ type_of dv.

(** The attribute is set and is not [None]. *)
Definition non_null (self : object) (name : string) : Prop :=
  ∃ v, getattr self name = Ok v ∧ v ≠ VNone.

(** Some keyword of the call carries the value. *)
Definition forwarded (kw : dict) (v : value) : Prop :=
  ∃ k, dict_get kw k = Some v.

(** The call of [make_loaders] hands the descriptor's [mean] and [std] to
    the loader. *)
Definition forwards_statistics (self : object) (o : loader_options) : Prop :=
  ∃ kw mean std, DataSet.make_loaders_kwargs self o = Ok kw
    ∧ getattr self "mean" = Ok mean ∧ getattr self "std" = Ok std
    ∧ forwarded kw mean ∧ forwarded kw std.

(** A descriptor with a label mapping has as many classes as the mapping
    has groups. *)
Definition class_count_matches (self : object) : Prop :=
  ∀ lm, getattr self "label_mapping" = Ok lm → lm ≠ VNone →
    ∃ n, group_count lm = Some n
      ∧ getattr self "num_classes" = Ok (VInt (Z.of_nat n)).

(** The call fails with a [ValueError]. *)
Definition fails_with_ValueError {A} (m : result A) : Prop :=
  ∃ e, m = Raise e ∧ class_of_exn e = CValueError.

(** ** A sample environment *)

Module Sample.

(** A builder that records what it was asked for. *)
Definition builder : value → option bool → result (value * option bool) :=
  λ num_classes pretrained, Ok (num_classes, pretrained).

(** The nine superclasses of the [RestrictedImageNet] docstring (dog, cat,
    frog, turtle, bird, monkey, fish, crab, insect), whose upper bounds
    are inclusive there. *)
Definition ranges : list group :=
  [GRange 151 269; GRange 281 286; GRange 30 33; GRange 33 38; GRange 80 101;
   GRange 365 383; GRange 389 398; GRange 118 122; GRange 300 320]%Z.

Definition collaborators : Collaborators := {|
  Model := value * option bool;
  Loaders := dict;
  imagenet_models := λ arch,
    if decide (arch = "resnet50") then Some builder else None;
  loaders_make_loaders := Ok;
  RESTRICTED_IMAGNET_RANGES := ranges;
  domain_size := 1000
|}.

(** A builder with no pretrained weights to load: asked for them, it fails
    on the missing checkpoint. *)
Definition builder_without_weights : value → option bool → result (value * option bool) :=
  λ num_classes pretrained,
    match pretrained with
    | Some true => Raise (KeyError "resnet18")
    | _ => Ok (num_classes, pretrained)
    end.

Definition collaborators_without_weights : Collaborators := {|
  Model := value * option bool;
  Loaders := dict;
  imagenet_models := λ arch,
    if decide (arch = "resnet18") then Some builder_without_weights else None;
  loaders_make_loaders := Ok;
  RESTRICTED_IMAGNET_RANGES := ranges;
  domain_size := 1000
|}.

Definition five_required : dict :=
  [("num_classes", VInt 10);
   ("mean", VTensor [4914 # 10000; 4822 # 10000; 4465 # 10000]%Q);
   ("std", VTensor [2023 # 10000; 1994 # 10000; 2010 # 10000]%Q);
   ("transform_train", VCompose "TRAIN_TRANSFORMS_DEFAULT(32)");
   ("transform_test", VCompose "TEST_TRANSFORMS_DEFAULT(32)")].

(** The same with [mean] explicitly [None]. *)
Definition null_mean : dict := dict_set five_required "mean" VNone.

Definition options : loader_options := default_options (VInt 8) (VInt 128).

End Sample.

(** ** Constructed descriptors *)

(** What a variant stores for field [k]: the override when the key is
    passed, else the variant's default, else [None]. *)
Definition resolved (defaults kwargs : dict) (k : string) : value :=
  match dict_get kwargs k with
  | Some v => v
  | None => default VNone (dict_get defaults k)
  end.

(** [d] is what instantiating the class returns for some arguments. *)
Definition built_by `{Collaborators} (cls : klass) (d : object) : Prop :=
  match cls with
  | DataSetClass =>
      ∃ ds_name data_path kwargs,
        DataSet.__init__ (new cls) ds_name data_path kwargs = Ok d
  | ImageNetClass =>
      ∃ data_path kwargs, ImageNet.__init__ (new cls) data_path kwargs = Ok d
  | Places365Class =>
      ∃ data_path kwargs, Places365.__init__ (new cls) data_path kwargs = Ok d
  | RestrictedImageNetClass =>
      ∃ data_path kwargs,
        RestrictedImageNet.__init__ (new cls) data_path kwargs = Ok d
  | CustomImageNetClass =>
      ∃ data_path custom_grouping kwargs,
        CustomImageNet.__init__ (new cls) data_path custom_grouping kwargs = Ok d
  end.

(** * Lemmas *)

(** Unfolds the binds of the error monad. *)
Ltac unfold_result :=
  unfold mbind, mret, result_bind, result_ret in *.

(** ** The label mapper on the examples of the specification *)

Example Build_two_groups :
  Build [GIndices [0; 1; 2]%Z; GIndices [3; 4]%Z] 6
  = Ok (mkLabelMapping [Some 0; Some 0; Some 0; Some 1; Some 1; None]%nat 2).
Proof. reflexivity. Qed.

Example Build_last_write_wins :
  Build [GIndices [0; 1]%Z; GIndices [1; 2]%Z] 3
  = Ok (mkLabelMapping [Some 0; Some 1; Some 1]%nat 2).
Proof. reflexivity. Qed.

Example Build_out_of_range : Build [GIndices [10]%Z] 5 = Raise GroupOutOfRange.
Proof. reflexivity. Qed.

Lemma Build_group_count groups n m :
  Build groups n = Ok m → lm_group_count m = length groups.
Proof.
  unfold Build. destruct (forallb _ _); [|discriminate].
  intros [= <-]. reflexivity.
Qed.

(** ** Dictionaries *)

Section dict_lemmas.
Implicit Types (d e : dict) (k : string) (v : value).

Lemma dict_get_None d k : dict_get d k = None ↔ k ∉ dict_keys d.
Proof.
  unfold dict_keys. induction d as [|[k' v'] d IH]; simpl.
  - split; [intros _; apply not_elem_of_nil | done].
  - rewrite not_elem_of_cons. case_decide; subst.
    + split; [discriminate | intros [? _]; done].
    + rewrite IH. split; [intros ?; split; [congruence | done] | intros [_ ?]; done].
Qed.

Lemma dict_get_is_Some d k : k ∈ dict_keys d → is_Some (dict_get d k).
Proof.
  intros Hin. destruct (dict_get d k) eqn:E; [eauto |].
  apply dict_get_None in E. done.
Qed.

Lemma dict_get_Some_elem d k v : dict_get d k = Some v → (k, v) ∈ d.
Proof.
  induction d as [|[k' v'] d IH]; simpl; [discriminate |].
  case_decide; subst.
  - intros [= ->]. apply list_elem_of_here.
  - intros ?. apply list_elem_of_further. auto.
Qed.

Lemma dict_get_set d k v k' :
  dict_get (dict_set d k v) k' = if decide (k = k') then Some v else dict_get d k'.
Proof.
  induction d as [|[k0 v0] d IH]; simpl.
  - reflexivity.
  - destruct (decide (k0 = k)) as [->|Hne]; simpl.
    + repeat case_decide; congruence.
    + rewrite IH. repeat case_decide; congruence.
Qed.

Lemma dict_keys_set d k v :
  dict_keys (dict_set d k v)
  = if decide (k ∈ dict_keys d) then dict_keys d else (dict_keys d ++ [k])%list.
Proof.
  unfold dict_keys. induction d as [|[k0 v0] d IH].
  - reflexivity.
  - cbn [dict_set]. destruct (decide (k0 = k)) as [->|Hne]; rewrite !fmap_cons.
    + rewrite decide_True by apply list_elem_of_here. done.
    + rewrite IH. cbn [fst]. destruct (decide (k ∈ d.*1)) as [Hin|Hnin].
      * rewrite decide_True by (by apply list_elem_of_further). done.
      * rewrite decide_False; [done |].
        rewrite elem_of_cons. intros [?|?]; congruence.
Qed.

Lemma wf_dict_set d k v : wf_dict d → wf_dict (dict_set d k v).
Proof.
  unfold wf_dict. intros Hd. rewrite dict_keys_set. case_decide; [done |].
  apply NoDup_app. split_and!; [done | | apply NoDup_singleton].
  intros x Hx ->%list_elem_of_singleton. done.
Qed.

Lemma wf_dict_update d e : wf_dict d → wf_dict (dict_update d e).
Proof.
  unfold dict_update. revert d.
  induction e as [|[k v] e IH]; intros d Hd; simpl; [done |].
  apply IH, wf_dict_set, Hd.
Qed.

Lemma wf_dict_merge d e : wf_dict (dict_merge d e).
Proof. apply wf_dict_update, wf_dict_update, NoDup_nil_2. Qed.

(** Updating with keys that do not include [k] leaves [k] alone. *)
Lemma dict_get_update_notin d e k :
  k ∉ dict_keys e → dict_get (dict_update d e) k = dict_get d k.
Proof.
  unfold dict_update, dict_keys. revert d.
  induction e as [|[k0 v0] e IH]; intros d Hk; simpl; [done |].
  apply not_elem_of_cons in Hk as [Hne Hk]. simpl in Hne.
  rewrite IH by done. rewrite dict_get_set. by rewrite decide_False.
Qed.

(** Updating with a well-formed dictionary: its bindings win. *)
Lemma dict_get_update d e k :
  wf_dict e →
  dict_get (dict_update d e) k
  = match dict_get e k with Some v => Some v | None => dict_get d k end.
Proof.
  unfold wf_dict, dict_update, dict_keys. revert d.
  induction e as [|[k0 v0] e IH]; intros d Hnd; simpl; [done |].
  apply NoDup_cons in Hnd as [Hk0 Hnd].
  destruct (decide (k0 = k)) as [->|Hne].
  - change (fold_left _ e ?x) with (dict_update x e).
    rewrite dict_get_update_notin by done.
    rewrite dict_get_set. by rewrite decide_True.
  - rewrite IH by done. rewrite dict_get_set. by rewrite decide_False.
Qed.

Lemma dict_get_merge d e k :
  wf_dict d → wf_dict e →
  dict_get (dict_merge d e) k
  = match dict_get e k with Some v => Some v | None => dict_get d k end.
Proof.
  intros Hd He. unfold dict_merge.
  rewrite dict_get_update by done. rewrite dict_get_update by done.
  simpl. by destruct (dict_get d k).
Qed.

Lemma dict_get_merge_notin d e k :
  wf_dict d → k ∉ dict_keys e → dict_get (dict_merge d e) k = dict_get d k.
Proof.
  intros Hd Hk. unfold dict_merge.
  rewrite dict_get_update_notin by done. rewrite dict_get_update by done.
  simpl. by destruct (dict_get d k).
Qed.

End dict_lemmas.

Lemma is_not_None_true v : is_not_None v = true ↔ v ≠ VNone.
Proof. destruct v; simpl; split; (done || congruence). Qed.

(** An instance of the exact type is an instance. *)
Lemma isinstance_type_of v : isinstance v (type_of v) = true.
Proof.
  unfold isinstance, issubclass. apply bool_decide_eq_true_2.
  destruct (type_of v); apply list_elem_of_here.
Qed.

(** So a rejected override has a type other than the default's: the
    converse is what fails, [bool] being a subclass of [int]. *)
Lemma offending_type_differs default_args kwargs k :
  offending default_args kwargs k → type_differs default_args kwargs k.
Proof.
  intros (dv & ov & Hd & Ho & Hdv & Hov & Hi). exists dv, ov.
  split_and!; [done.. |]. intros Heq. rewrite <-Heq, isinstance_type_of in Hi. done.
Qed.

Example isinstance_bool_int : isinstance (VBool true) TInt = true.
Proof. reflexivity. Qed.

Example isinstance_int_bool : isinstance (VInt 1) TBool = false.
Proof. reflexivity. Qed.

(** ** The type check of [override_args] *)

Section check_types.
Variables default_args kwargs : dict.

Lemma check_types_raise ks e :
  (∀ k, k ∈ ks → k ∈ dict_keys kwargs) →
  DataSet.check_types default_args kwargs ks = Raise e →
  ∃ k dv, k ∈ ks ∧ offending default_args kwargs k
    ∧ dict_get default_args k = Some dv
    ∧ e = ArgumentShouldHaveType k (type_of dv).
Proof.
  induction ks as [|k ks IH]; intros Hks; simpl; [discriminate |].
  assert (Htl : ∀ k', k' ∈ ks → k' ∈ dict_keys kwargs)
    by (intros; apply Hks; by apply list_elem_of_further).
  assert (Hnext : DataSet.check_types default_args kwargs ks = Raise e →
    ∃ k' dv, k' ∈ k :: ks ∧ offending default_args kwargs k'
      ∧ dict_get default_args k' = Some dv
      ∧ e = ArgumentShouldHaveType k' (type_of dv)).
  { intros (k' & dv & ? & ? & ? & ?)%IH; [|done].
    exists k', dv. split_and!; [by apply list_elem_of_further | done..]. }
  destruct (dict_get default_args k) as [dv|] eqn:Hd; [|done].
  destruct (dict_get_is_Some kwargs k) as [ov Ho]; [apply Hks, list_elem_of_here |].
  unfold dict_item. rewrite Ho. simpl.
  destruct (is_not_None dv) eqn:Hdv, (is_not_None ov) eqn:Hov; simpl; try done.
  destruct (isinstance ov (type_of dv)) eqn:Hi; simpl; [done |].
  intros [= <-]. exists k, dv. split_and!; [apply list_elem_of_here | | done..].
  exists dv, ov. by rewrite <-!is_not_None_true.
Qed.

Lemma check_types_offending ks k :
  (∀ k, k ∈ ks → k ∈ dict_keys kwargs) →
  k ∈ ks → offending default_args kwargs k →
  raises (DataSet.check_types default_args kwargs ks).
Proof.
  intros Hks Hin (dv & ov & Hd & Ho & Hdv & Hov & Hi).
  apply is_not_None_true in Hdv, Hov.
  induction ks as [|k0 ks IH]; [by apply elem_of_nil in Hin |].
  simpl. destruct (decide (k0 = k)) as [->|Hne].
  - rewrite Hd. unfold dict_item. rewrite Ho. simpl.
    rewrite Hdv, Hov, Hi. simpl. by eexists.
  - apply elem_of_cons in Hin as [?|Hin]; [congruence |].
    assert (Htl : raises (DataSet.check_types default_args kwargs ks)).
    { apply IH; [|done]. intros; apply Hks; by apply list_elem_of_further. }
    destruct (dict_get default_args k0) as [dv0|]; [|done].
    destruct (dict_item kwargs k0) as [ov0|e0]; simpl; [|by eexists].
    destruct (_ && _); [by eexists | done].
Qed.

End check_types.

Lemma override_args_Ok default_args kwargs merged :
  DataSet.override_args default_args kwargs = Ok merged →
  merged = dict_merge default_args kwargs.
Proof.
  unfold DataSet.override_args. unfold_result.
  destruct (DataSet.check_types _ _ _); congruence.
Qed.

Lemma raises_iff_offending default_args kwargs :
  raises (DataSet.override_args default_args kwargs)
  ↔ ∃ k, offending default_args kwargs k.
Proof.
  unfold DataSet.override_args. unfold_result. split.
  - intros [e He].
    destruct (DataSet.check_types _ _ _) eqn:Hc; simpl in He; [discriminate |].
    apply check_types_raise in Hc as (k & _ & _ & ? & _); eauto.
  - intros [k Hk].
    destruct (check_types_offending default_args kwargs (dict_keys kwargs) k)
      as [e He]; [done | | done |].
    + destruct Hk as (_ & ov & _ & Ho & _).
      destruct (decide (k ∈ dict_keys kwargs)) as [|Hn]; [done |].
      apply dict_get_None in Hn. congruence.
    + rewrite He. by eexists.
Qed.

(** * The claims *)

(** ** C2 *)

(** C2, as stated, fails: with the default [{a: 5}] and the override
    [{a: True}] both values are set and their runtime types ([int], [bool])
    differ, yet [override_args] raises nothing and returns the merge. *)
Lemma override_args_type_differs_no_error :
  type_differs [("a", VInt 5)] [("a", VBool true)] "a"
  ∧ DataSet.override_args [("a", VInt 5)] [("a", VBool true)]
    = Ok [("a", VBool true)]
  ∧ ¬ (raises (DataSet.override_args [("a", VInt 5)] [("a", VBool true)])
       ↔ ∃ k, type_differs [("a", VInt 5)] [("a", VBool true)] k).
Proof.
  assert (Hd : type_differs [("a", VInt 5)] [("a", VBool true)] "a").
  { exists (VInt 5), (VBool true). split_and!; done. }
  split_and!; [done | reflexivity |].
  intros [_ Hr]. destruct Hr as [e He]; [by exists "a" | discriminate].
Qed.

(** C2, amended: [override_args] raises if and only if some key present in
    both mappings has a non-null default, a non-null override, and the
    override is not an instance of the default's runtime type (its type is
    neither that type nor a subclass of it).  The error then names such a
    key and the type of its default.  When for every shared key the default
    or the override is null, nothing is raised. *)
Theorem override_args_raises_iff_not_instance (default_args kwargs : dict) :
  (raises (DataSet.override_args default_args kwargs)
   ↔ ∃ k, offending default_args kwargs k)
  ∧ (∀ e, DataSet.override_args default_args kwargs = Raise e →
       class_of_exn e = CValueError
       ∧ ∃ k dv, offending default_args kwargs k
           ∧ dict_get default_args k = Some dv
           ∧ e = ArgumentShouldHaveType k (type_of dv))
  ∧ ((∀ k dv ov, dict_get default_args k = Some dv → dict_get kwargs k = Some ov →
        dv = VNone ∨ ov = VNone) →
     DataSet.override_args default_args kwargs = Ok (dict_merge default_args kwargs)).
Proof.
  split_and!.
  - apply raises_iff_offending.
  - unfold DataSet.override_args. unfold_result. intros e He.
    destruct (DataSet.check_types _ _ _) eqn:Hc; simpl in He; [discriminate |].
    injection He as ->.
    apply check_types_raise in Hc as (k & dv & _ & ? & ? & ->); [|done].
    split; [done | eauto].
  - intros Hnull.
    destruct (DataSet.override_args default_args kwargs) as [m|e] eqn:E.
    + by rewrite (override_args_Ok _ _ _ E).
    + assert (Hr : raises (DataSet.override_args default_args kwargs))
        by (rewrite E; by eexists).
      apply raises_iff_offending in Hr as (k & dv & ov & Hd & Ho & ? & ? & _).
      destruct (Hnull k dv ov Hd Ho); done.
Qed.

Lemma override_args_raises_iff_not_instance_witness :
  raises (DataSet.override_args [("a", VInt 5)] [("a", VStr "x")])
  ∧ DataSet.override_args [("a", VInt 5)] [("a", VNone)] = Ok [("a", VNone)].
Proof.
  split.
  - apply (override_args_raises_iff_not_instance [("a", VInt 5)] [("a", VStr "x")]).
    exists "a", (VInt 5), (VStr "x"). split_and!; done.
  - apply (override_args_raises_iff_not_instance [("a", VInt 5)] [("a", VNone)]).
    intros k dv ov Hd Ho. right. simpl in Ho. case_decide; congruence.
Defined.

(** ** C5 *)

(** C5: when [override_args] does not raise, the dictionary it returns binds
    every key of the overrides to its override value (an explicit [None]
    replaces a set default; a key absent from the defaults is passed
    through), and every other key as the defaults do; it is a new object,
    and the two argument dictionaries are as they were. *)
Theorem override_args_merges (σ σ' : store) (default_args kwargs r : nat) (D K : dict) :
  wf_dict D → wf_dict K →
  σ !! default_args = Some D → σ !! kwargs = Some K →
  override_args_ref σ default_args kwargs = Ok (σ', r) →
  σ' !! default_args = Some D ∧ σ' !! kwargs = Some K
  ∧ r ≠ default_args ∧ r ≠ kwargs
  ∧ ∃ M, σ' !! r = Some M ∧ wf_dict M
      ∧ (∀ k v, dict_get K k = Some v → dict_get M k = Some v)
      ∧ (∀ k, dict_get K k = None → dict_get M k = dict_get D k).
Proof.
  intros HD HK Hd Hk. unfold override_args_ref, alloc.
  rewrite (list_lookup_total_correct _ _ _ Hd), (list_lookup_total_correct _ _ _ Hk).
  destruct (DataSet.override_args D K) as [M|e] eqn:HM; unfold_result; [|discriminate].
  intros [= <- <-]. apply override_args_Ok in HM as ->.
  pose proof (lookup_lt_Some _ _ _ Hd). pose proof (lookup_lt_Some _ _ _ Hk).
  split_and!; try lia.
  - by rewrite lookup_app_l.
  - by rewrite lookup_app_l.
  - exists (dict_merge D K). split_and!.
    + by apply list_lookup_middle.
    + apply wf_dict_merge.
    + intros k v Hv. by rewrite dict_get_merge, Hv.
    + intros k Hv. by rewrite dict_get_merge, Hv.
Qed.

Lemma override_args_merges_witness :
  ∃ M, ([[("a", VInt 5); ("b", VStr "x")]; [("a", VNone); ("c", VInt 9)];
         [("a", VNone); ("b", VStr "x"); ("c", VInt 9)]] : store) !! 2%nat = Some M
     ∧ dict_get M "a" = Some VNone ∧ dict_get M "b" = Some (VStr "x")
     ∧ dict_get M "c" = Some (VInt 9).
Proof.
  destruct (override_args_merges
    [[("a", VInt 5); ("b", VStr "x")]; [("a", VNone); ("c", VInt 9)]]
    [[("a", VInt 5); ("b", VStr "x")]; [("a", VNone); ("c", VInt 9)];
     [("a", VNone); ("b", VStr "x"); ("c", VInt 9)]]
    0 1 2 [("a", VInt 5); ("b", VStr "x")] [("a", VNone); ("c", VInt 9)])
    as (_ & _ & _ & _ & M & HM & _ & Hover & Hkeep).
  - apply (bool_decide_unpack _). vm_compute. exact I.
  - apply (bool_decide_unpack _). vm_compute. exact I.
  - reflexivity.
  - reflexivity.
  - reflexivity.
  - exists M. split_and!.
    + exact HM.
    + apply Hover. reflexivity.
    + rewrite Hkeep; reflexivity.
    + apply Hover. reflexivity.
Defined.

(** ** Keyword binding *)

Lemma bind_keywords_Ok positional kw kw' :
  bind_keywords positional kw = Ok kw' → kw' = kw.
Proof. unfold bind_keywords. destruct (List.find _ _); congruence. Qed.

Lemma bind_keywords_no_clash positional kw :
  (∀ k, k ∈ dict_keys kw → k ∉ positional) → bind_keywords positional kw = Ok kw.
Proof.
  intros Hkw. unfold bind_keywords.
  destruct (List.find _ _) as [k|] eqn:Hfind; [|done].
  apply find_some in Hfind as [Hin Hpos]. apply list_elem_of_In, Hkw in Hin.
  by apply bool_decide_eq_true_1 in Hpos.
Qed.

Lemma bind_keywords_Raise positional kw e :
  bind_keywords positional kw = Raise e →
  ∃ name, e = MultipleValues name ∧ name ∈ positional ∧ name ∈ dict_keys kw.
Proof.
  unfold bind_keywords. destruct (List.find _ _) as [k|] eqn:Hfind; [|discriminate].
  intros [= <-]. apply find_some in Hfind as [Hin Hpos].
  exists k. split_and!; [done | | by apply list_elem_of_In].
  by apply bool_decide_eq_true_1 in Hpos.
Qed.

(** No parameter name of a constructor is a field name. *)
Lemma parameter_not_field name :
  name ∈ ["self"; "ds_name"; "data_path"; "custom_grouping"] →
  name ∉ (DataSet.required_args ++ DataSet.optional_args)%list.
Proof.
  intros Hpos.
  repeat (apply elem_of_cons in Hpos as [->|Hpos]);
    [by apply (bool_decide_unpack _) .. | by apply elem_of_nil in Hpos].
Qed.

Lemma positional_not_field name :
  name ∈ init_positional →
  name ∉ (DataSet.required_args ++ DataSet.optional_args)%list.
Proof.
  intros Hpos. apply parameter_not_field. unfold init_positional in Hpos.
  repeat (apply elem_of_cons in Hpos as [->|Hpos]);
    [by apply (bool_decide_unpack _) .. | by apply elem_of_nil in Hpos].
Qed.

(** A keyword dictionary made of field names only passes the binding. *)
Lemma bind_keywords_fields positional kw :
  (∀ name, name ∈ positional →
     name ∈ ["self"; "ds_name"; "data_path"; "custom_grouping"]) →
  (∀ k, k ∈ dict_keys kw → k ∈ (DataSet.required_args ++ DataSet.optional_args)%list) →
  bind_keywords positional kw = Ok kw.
Proof.
  intros Hpos Hkw. apply bind_keywords_no_clash.
  intros k Hk%Hkw Hc%Hpos. by apply parameter_not_field in Hc.
Qed.

Lemma init_positional_parameters name :
  name ∈ init_positional → name ∈ ["self"; "ds_name"; "data_path"; "custom_grouping"].
Proof.
  unfold init_positional. intros Hn.
  repeat (apply elem_of_cons in Hn as [->|Hn]);
    [by apply (bool_decide_unpack _) .. | by apply elem_of_nil in Hn].
Qed.

(** ** [DataSet.__init__] *)

Lemma size_pos_iff (X : gset string) : (0 < size X)%nat ↔ ∃ x, x ∈ X.
Proof.
  split; [apply size_pos_elem_of |].
  intros [x Hx]. destruct (decide (size X = 0%nat)) as [E|]; [|lia].
  apply size_empty_iff in E. set_solver.
Qed.

(** Unfolds [DataSet.__init__] on keywords that pass the binding. *)
Ltac init_bound :=
  unfold DataSet.__init__;
  let Hb := fresh "Hb" in
  destruct (bind_keywords init_positional _) as [?|] eqn:Hb;
  [apply bind_keywords_Ok in Hb as -> | try discriminate];
  unfold_result; cbv zeta.

Section init.
Variables (ds_name data_path : value) (kwargs : dict).

(** A missing required argument is reported, whatever other keyword is
    passed. *)
Lemma missing_args_reported self k :
  (∀ k', k' ∈ dict_keys kwargs → k' ∉ init_positional) →
  k ∈ DataSet.required_args → k ∉ dict_keys kwargs →
  DataSet.__init__ self ds_name data_path kwargs
  = Raise (MissingRequiredArgs
             (list_to_set DataSet.required_args ∖ list_to_set (dict_keys kwargs))).
Proof.
  intros Hb Hreq Hk. unfold DataSet.__init__.
  rewrite bind_keywords_no_clash by done. unfold_result. cbv zeta.
  rewrite decide_True; [done |].
  apply size_pos_iff. exists k.
  apply elem_of_difference. by rewrite !elem_of_list_to_set.
Qed.

(** The attribute table of a fresh object after [__init__]. *)
Lemma init_new cls d :
  DataSet.__init__ (new cls) ds_name data_path kwargs = Ok d →
  d = mkObject cls
        [("ds_name", ds_name);
         ("data_path", data_path);
         ("num_classes", default VNone (dict_get kwargs "num_classes"));
         ("mean", default VNone (dict_get kwargs "mean"));
         ("std", default VNone (dict_get kwargs "std"));
         ("transform_train", default VNone (dict_get kwargs "transform_train"));
         ("transform_test", default VNone (dict_get kwargs "transform_test"));
         ("custom_class", default VNone (dict_get kwargs "custom_class"));
         ("label_mapping", default VNone (dict_get kwargs "label_mapping"));
         ("custom_class_args", default VNone (dict_get kwargs "custom_class_args"))].
Proof.
  init_bound. repeat case_decide; try discriminate. intros [= <-]. reflexivity.
Qed.

(** On success every required argument was passed and nothing else but
    optional ones. *)
Lemma init_Ok_keys self d :
  DataSet.__init__ self ds_name data_path kwargs = Ok d →
  (∀ k, k ∈ DataSet.required_args → k ∈ dict_keys kwargs)
  ∧ (∀ k, k ∈ dict_keys kwargs →
       k ∈ (DataSet.required_args ++ DataSet.optional_args)%list).
Proof.
  init_bound.
  case_decide as Hm; [discriminate |]. case_decide as He; [discriminate |].
  intros _. rewrite size_pos_iff in Hm, He. split; intros k Hk.
  - destruct (decide (k ∈ dict_keys kwargs)) as [|Hn]; [done |].
    destruct Hm. exists k.
    apply elem_of_difference. by rewrite !elem_of_list_to_set.
  - destruct (decide (k ∈ (DataSet.required_args ++ DataSet.optional_args)%list))
      as [|Hn]; [done |].
    destruct He. exists k.
    apply elem_of_difference. by rewrite !elem_of_list_to_set.
Qed.

Lemma init_succeeds self :
  (∀ k, k ∈ DataSet.required_args → k ∈ dict_keys kwargs) →
  (∀ k, k ∈ dict_keys kwargs →
     k ∈ (DataSet.required_args ++ DataSet.optional_args)%list) →
  ∃ d, DataSet.__init__ self ds_name data_path kwargs = Ok d.
Proof.
  intros Hreq Hall. unfold DataSet.__init__.
  rewrite (bind_keywords_fields _ _ init_positional_parameters Hall).
  unfold_result. cbv zeta. rewrite decide_False.
  - rewrite decide_False; [by eexists |].
    rewrite size_pos_iff. intros [k Hk].
    apply elem_of_difference in Hk as [Hk Hn]. apply Hn.
    apply elem_of_list_to_set, Hall. by apply elem_of_list_to_set in Hk.
  - rewrite size_pos_iff. intros [k Hk].
    apply elem_of_difference in Hk as [Hk Hn]. apply Hn.
    apply elem_of_list_to_set, Hreq. by apply elem_of_list_to_set in Hk.
Qed.

Lemma init_class_of self d :
  DataSet.__init__ self ds_name data_path kwargs = Ok d → class_of d = class_of self.
Proof.
  init_bound. repeat case_decide; try discriminate. by intros [= <-].
Qed.

End init.

(** After [__init__] each of the eight fields holds what was passed for it,
    or [None]. *)
Lemma init_getattr cls ds_name data_path kwargs d k :
  DataSet.__init__ (new cls) ds_name data_path kwargs = Ok d →
  k ∈ (DataSet.required_args ++ DataSet.optional_args)%list →
  getattr d k = Ok (default VNone (dict_get kwargs k)).
Proof.
  intros ->%init_new Hk. unfold DataSet.required_args, DataSet.optional_args in Hk.
  simpl in Hk.
  repeat (apply elem_of_cons in Hk as [->|Hk]);
    [reflexivity .. | by apply elem_of_nil in Hk].
Qed.

(** ** C3 *)

(** C3: for keyword arguments whose keys are exactly the five required
    names, [DataSet.__init__] succeeds, every required field of the
    descriptor is the value passed for it, and [custom_class],
    [label_mapping] and [custom_class_args] are [None]. *)
Theorem init_exactly_required (cls : klass) (ds_name data_path : value) (kwargs : dict) :
  (list_to_set (dict_keys kwargs) : gset string) = list_to_set DataSet.required_args →
  ∃ d, DataSet.__init__ (new cls) ds_name data_path kwargs = Ok d
    ∧ getattr d "ds_name" = Ok ds_name
    ∧ getattr d "data_path" = Ok data_path
    ∧ (∀ k, k ∈ DataSet.required_args →
         ∃ v, dict_get kwargs k = Some v ∧ getattr d k = Ok v)
    ∧ (∀ k, k ∈ DataSet.optional_args → getattr d k = Ok VNone).
Proof.
  intros Hkeys.
  assert (Hiff : ∀ k, k ∈ dict_keys kwargs ↔ k ∈ DataSet.required_args).
  { intros k. rewrite <-(elem_of_list_to_set (C:=gset string) k (dict_keys kwargs)).
    rewrite Hkeys. apply elem_of_list_to_set. }
  destruct (init_succeeds ds_name data_path kwargs (new cls)) as [d Hd].
  { intros k. apply Hiff. }
  { intros k Hk%Hiff. apply elem_of_app. by left. }
  assert (Hget : ∀ k, k ∈ (DataSet.required_args ++ DataSet.optional_args)%list →
                      getattr d k = Ok (default VNone (dict_get kwargs k)))
    by (intros k; apply (init_getattr _ _ _ _ _ _ Hd)).
  exists d. split; [done |]. split_and!.
  - by rewrite (init_new _ _ _ _ _ Hd).
  - by rewrite (init_new _ _ _ _ _ Hd).
  - intros k Hk. destruct (dict_get_is_Some kwargs k) as [v Hv]; [by apply Hiff |].
    exists v. split; [done |].
    rewrite Hget by (apply elem_of_app; by left). by rewrite Hv.
  - intros k Hk. rewrite Hget by (apply elem_of_app; by right).
    assert (Hnone : dict_get kwargs k = None); [|by rewrite Hnone].
    apply dict_get_None. rewrite Hiff. unfold DataSet.optional_args in Hk.
    repeat (apply elem_of_cons in Hk as [->|Hk]);
      [by apply (bool_decide_unpack _) .. | by apply elem_of_nil in Hk].
Qed.

Lemma init_exactly_required_witness :
  ∃ d, DataSet.__init__ (new DataSetClass) (VStr "cifar") (VStr "/tmp/cifar")
         Sample.five_required = Ok d
     ∧ getattr d "custom_class" = Ok VNone.
Proof.
  destruct (init_exactly_required DataSetClass (VStr "cifar") (VStr "/tmp/cifar")
              Sample.five_required) as (d & Hd & _ & _ & _ & Hopt).
  - vm_compute. reflexivity.
  - exists d. split; [exact Hd |]. apply Hopt. by apply (bool_decide_unpack _).
Defined.

(** ** C4 *)

(** C4, as stated, fails: called with the keywords [num_classes] and
    [ds_name], four required arguments are missing, yet the call raises the
    [TypeError] of a keyword that names the positional parameter [ds_name],
    not a [ValueError]. *)
Lemma init_positional_keyword_TypeError :
  (∃ k, k ∈ DataSet.required_args
        ∧ k ∉ dict_keys [("num_classes", VInt 10); ("ds_name", VStr "x")])
  ∧ DataSet.__init__ (new DataSetClass) (VStr "cifar") (VStr "/tmp/cifar")
      [("num_classes", VInt 10); ("ds_name", VStr "x")]
    = Raise (MultipleValues "ds_name")
  ∧ class_of_exn (MultipleValues "ds_name") = CTypeError
  ∧ ¬ fails_with_ValueError
        (DataSet.__init__ (new DataSetClass) (VStr "cifar") (VStr "/tmp/cifar")
           [("num_classes", VInt 10); ("ds_name", VStr "x")]).
Proof.
  split_and!; [| reflexivity | reflexivity |].
  - exists "mean". split; by apply (bool_decide_unpack _).
  - intros (e & He & Hc). vm_compute in He. injection He as <-. discriminate.
Qed.

(** C4, amended: when no keyword names [self], [ds_name] or [data_path] and
    a required argument is missing, [DataSet.__init__] raises the
    [ValueError] that carries exactly the set of missing required names,
    whatever other keys (recognised or not) are passed. *)
Theorem init_missing_required (self : object) (ds_name data_path : value) (kwargs : dict) :
  (∀ k, k ∈ dict_keys kwargs → k ∉ init_positional) →
  (∃ k, k ∈ DataSet.required_args ∧ k ∉ dict_keys kwargs) →
  ∃ missing,
    DataSet.__init__ self ds_name data_path kwargs = Raise (MissingRequiredArgs missing)
    ∧ class_of_exn (MissingRequiredArgs missing) = CValueError
    ∧ ∀ k, k ∈ missing ↔ k ∈ DataSet.required_args ∧ k ∉ dict_keys kwargs.
Proof.
  intros Hb (k & Hreq & Hk). eexists. split_and!.
  - by apply (missing_args_reported ds_name data_path kwargs self k).
  - reflexivity.
  - intros k'. rewrite elem_of_difference, !elem_of_list_to_set. done.
Qed.

Lemma init_missing_required_witness :
  ∃ missing,
    DataSet.__init__ (new DataSetClass) (VStr "cifar") (VStr "/tmp/cifar")
      [("num_classes", VInt 10); ("bogus", VInt 1)] = Raise (MissingRequiredArgs missing)
    ∧ "mean" ∈ missing ∧ "std" ∈ missing
    ∧ "transform_train" ∈ missing ∧ "transform_test" ∈ missing
    ∧ "num_classes" ∉ missing.
Proof.
  destruct (init_missing_required (new DataSetClass) (VStr "cifar") (VStr "/tmp/cifar")
              [("num_classes", VInt 10); ("bogus", VInt 1)])
    as (missing & Hm & _ & Hin).
  - intros k Hk. vm_compute in Hk.
    repeat (apply elem_of_cons in Hk as [->|Hk]);
      [by apply (bool_decide_unpack _) .. | by apply elem_of_nil in Hk].
  - exists "mean". split; by apply (bool_decide_unpack _).
  - exists missing. split; [exact Hm |].
    split_and!; try (apply Hin; split; by apply (bool_decide_unpack _)).
    intros [_ Hn]%Hin. apply Hn. by apply (bool_decide_unpack _).
Defined.

(** ** C6 *)

(** C6, as stated, fails: with [mean] passed explicitly as [None] (and the
    other four required arguments set) [DataSet.__init__] succeeds and the
    descriptor's [mean] is [None]. *)
Lemma init_accepts_null_mean :
  ∃ d, DataSet.__init__ (new DataSetClass) (VStr "cifar") (VStr "/tmp/cifar")
         Sample.null_mean = Ok d
     ∧ getattr d "mean" = Ok VNone
     ∧ ¬ (non_null d "mean" ∧ non_null d "std").
Proof.
  eexists. split_and!; [reflexivity | reflexivity |].
  intros [(v & Hv & Hne) _]. vm_compute in Hv. congruence.
Qed.

(** C6, amended: on every successfully constructed descriptor [mean] and
    [std] are the values passed for them (both keys are present in the
    keyword arguments); they are non-null exactly when the values passed
    are, and an explicit [None] is accepted and stored. *)
Theorem init_mean_std_as_passed (cls : klass) (ds_name data_path : value)
    (kwargs : dict) (d : object) :
  DataSet.__init__ (new cls) ds_name data_path kwargs = Ok d →
  ∃ mean std,
    dict_get kwargs "mean" = Some mean ∧ dict_get kwargs "std" = Some std
    ∧ getattr d "mean" = Ok mean ∧ getattr d "std" = Ok std
    ∧ (non_null d "mean" ∧ non_null d "std" ↔ mean ≠ VNone ∧ std ≠ VNone).
Proof.
  intros Hd. destruct (init_Ok_keys _ _ _ _ _ Hd) as [Hreq _].
  destruct (dict_get_is_Some kwargs "mean") as [mean Hmean].
  { apply Hreq. by apply (bool_decide_unpack _). }
  destruct (dict_get_is_Some kwargs "std") as [std Hstd].
  { apply Hreq. by apply (bool_decide_unpack _). }
  exists mean, std.
  assert (Hgm : getattr d "mean" = Ok mean).
  { rewrite (init_getattr _ _ _ _ _ _ Hd), Hmean; [done |].
    by apply (bool_decide_unpack _). }
  assert (Hgs : getattr d "std" = Ok std).
  { rewrite (init_getattr _ _ _ _ _ _ Hd), Hstd; [done |].
    by apply (bool_decide_unpack _). }
  split_and!; [done.. |]. unfold non_null. rewrite Hgm, Hgs. split.
  - intros [(m & [= <-] & ?) (s & [= <-] & ?)]. done.
  - intros [? ?]. split; eexists; (split; [reflexivity | done]).
Qed.

Lemma init_mean_std_as_passed_witness :
  ∃ d, DataSet.__init__ (new DataSetClass) (VStr "cifar") (VStr "/tmp/cifar")
         Sample.five_required = Ok d
     ∧ non_null d "mean" ∧ non_null d "std".
Proof.
  eexists. split; [reflexivity |].
  destruct (init_mean_std_as_passed DataSetClass (VStr "cifar") (VStr "/tmp/cifar")
              Sample.five_required _ eq_refl)
    as (mean & std & Hm & Hs & _ & _ & Hiff).
  apply Hiff. vm_compute in Hm, Hs.
  injection Hm as <-. injection Hs as <-. split; discriminate.
Defined.

(** ** [make_loaders] *)

(** ** C1 *)

(** C1, as stated, fails: for the [ImageNet] descriptor built without
    overrides and the default options, no keyword of the call to the loader
    carries the descriptor's [mean] (nor its [std]). *)
Lemma make_loaders_drops_statistics :
  ∃ d, ImageNet.__init__ (new ImageNetClass) (VStr "/data/imagenet") [] = Ok d
     ∧ non_null d "mean" ∧ non_null d "std"
     ∧ ¬ forwards_statistics d Sample.options.
Proof.
  eexists. split_and!; [reflexivity | | |].
  - eexists. split; [reflexivity | discriminate].
  - eexists. split; [reflexivity | discriminate].
  - intros (kw & mean & std & Hkw & Hm & _ & [k Hk] & _).
    vm_compute in Hkw, Hm. injection Hkw as <-. injection Hm as <-.
    apply dict_get_Some_elem in Hk.
    repeat (apply elem_of_cons in Hk as [Hk|Hk]; [discriminate |]).
    by apply elem_of_nil in Hk.
Qed.

(** C1, amended: [make_loaders] on a constructed descriptor delegates to
    the loader with the descriptor's [data_path], its pair of train and
    test pipelines, its name, [label_mapping], [custom_class] and
    [custom_class_args], together with the caller's options; [mean] and
    [std] are not passed: the call has no other keyword, and its arguments
    stay the same whatever [mean] and [std] are set to. *)
Theorem make_loaders_forwards `{Collaborators} (cls : klass) (ds_name data_path : value)
    (kwargs : dict) (d : object) (o : loader_options) :
  DataSet.__init__ (new cls) ds_name data_path kwargs = Ok d →
  ∃ kw, DataSet.make_loaders_kwargs d o = Ok kw
    ∧ DataSet.make_loaders d o = loaders_make_loaders kw
    ∧ dict_keys kw
      = ["workers"; "batch_size"; "transforms"; "data_path"; "data_aug"; "dataset";
         "label_mapping"; "custom_class"; "val_batch_size"; "subset";
         "subset_start"; "subset_type"; "only_val"; "seed"; "shuffle_train";
         "shuffle_val"; "custom_class_args"]
    ∧ dict_get kw "data_path" = Some data_path
    ∧ dict_get kw "dataset" = Some ds_name
    ∧ (∃ train test, getattr d "transform_train" = Ok train
         ∧ getattr d "transform_test" = Ok test
         ∧ dict_get kw "transforms" = Some (VTuple [train; test]))
    ∧ dict_item kw "label_mapping" = getattr d "label_mapping"
    ∧ dict_item kw "custom_class" = getattr d "custom_class"
    ∧ dict_item kw "custom_class_args" = getattr d "custom_class_args"
    ∧ dict_get kw "workers" = Some (workers o)
    ∧ dict_get kw "batch_size" = Some (batch_size o)
    ∧ dict_get kw "data_aug" = Some (data_aug o)
    ∧ dict_get kw "subset" = Some (subset o)
    ∧ dict_get kw "subset_start" = Some (subset_start o)
    ∧ dict_get kw "subset_type" = Some (subset_type o)
    ∧ dict_get kw "val_batch_size" = Some (val_batch_size o)
    ∧ dict_get kw "only_val" = Some (only_val o)
    ∧ dict_get kw "seed" = Some (subset_seed o)
    ∧ dict_get kw "shuffle_train" = Some (shuffle_train o)
    ∧ dict_get kw "shuffle_val" = Some (shuffle_val o)
    ∧ ∀ mean std,
        DataSet.make_loaders_kwargs (setattr (setattr d "mean" mean) "std" std) o = Ok kw.
Proof.
  intros ->%init_new. eexists. split; [reflexivity |].
  split_and!; try reflexivity.
  eexists _, _. split_and!; reflexivity.
Qed.

Lemma make_loaders_forwards_witness :
  ∃ d kw, DataSet.__init__ (new DataSetClass) (VStr "cifar") (VStr "/tmp/cifar")
            Sample.five_required = Ok d
     ∧ DataSet.make_loaders (H := Sample.collaborators) d Sample.options = Ok kw
     ∧ dict_get kw "data_path" = Some (VStr "/tmp/cifar")
     ∧ dict_get kw "mean" = None.
Proof.
  eexists.
  destruct (make_loaders_forwards (H := Sample.collaborators) DataSetClass
              (VStr "cifar") (VStr "/tmp/cifar") Sample.five_required _
              Sample.options eq_refl)
    as (kw & _ & Hcall & Hkeys & Hpath & _).
  exists kw. split_and!; [reflexivity | exact Hcall | exact Hpath |].
  apply dict_get_None. rewrite Hkeys. by apply (bool_decide_unpack _).
Defined.

(** ** The variant constructors *)

(** A constructor that returned has bound its keywords. *)
Lemma entry_bound {A} positional kwargs (f : dict → result A) r :
  (kw ← bind_keywords positional kwargs; f kw) = Ok r → f kwargs = Ok r.
Proof.
  unfold_result. destruct (bind_keywords _ _) as [kw|] eqn:Hkw; [|discriminate].
  by apply bind_keywords_Ok in Hkw as ->.
Qed.

(** What remains of a variant's [__init__] once its defaults are known. *)
Lemma override_then_init self ds_name data_path defaults kwargs d :
  (ds_kwargs ← DataSet.override_args defaults kwargs;
   DataSet.__init__ self ds_name data_path ds_kwargs) = Ok d →
  DataSet.__init__ self ds_name data_path (dict_merge defaults kwargs) = Ok d.
Proof.
  unfold_result.
  destruct (DataSet.override_args defaults kwargs) as [m|] eqn:Hm; [|discriminate].
  by apply override_args_Ok in Hm as ->.
Qed.

Section variants.
Context `{Collaborators}.
Variables (data_path : value) (kwargs : dict) (d : object).

Lemma ImageNet_init_inv self :
  ImageNet.__init__ self data_path kwargs = Ok d →
  DataSet.__init__ self (VStr "imagenet") data_path
    (dict_merge ImageNet.ds_kwargs kwargs) = Ok d.
Proof. intros Hd%entry_bound. by apply override_then_init. Qed.

Lemma Places365_init_inv self :
  Places365.__init__ self data_path kwargs = Ok d →
  DataSet.__init__ self (VStr "places365") data_path
    (dict_merge Places365.ds_kwargs kwargs) = Ok d.
Proof. intros Hd%entry_bound. by apply override_then_init. Qed.

Lemma RestrictedImageNet_init_inv self :
  RestrictedImageNet.__init__ self data_path kwargs = Ok d →
  ∃ m, Build RESTRICTED_IMAGNET_RANGES domain_size = Ok m
    ∧ DataSet.__init__ self (VStr "restricted_imagenet") data_path
        (dict_merge (grouped_ds_kwargs RESTRICTED_IMAGNET_RANGES (VLabelMapping m))
           kwargs) = Ok d.
Proof.
  intros Hd%entry_bound. revert Hd. unfold get_label_mapping.
  destruct (Build _ _) as [m|]; [|discriminate].
  intros Hd. exists m. split; [done |]. by apply override_then_init.
Qed.

Lemma CustomImageNet_init_inv self custom_grouping :
  CustomImageNet.__init__ self data_path custom_grouping kwargs = Ok d →
  ∃ m, Build custom_grouping domain_size = Ok m
    ∧ DataSet.__init__ self (VStr "custom_imagenet") data_path
        (dict_merge (grouped_ds_kwargs custom_grouping (VLabelMapping m)) kwargs)
      = Ok d.
Proof.
  intros Hd%entry_bound. revert Hd. unfold get_label_mapping.
  destruct (Build _ _) as [m|]; [|discriminate].
  intros Hd. exists m. split; [done |]. by apply override_then_init.
Qed.

End variants.

Lemma wf_grouped_ds_kwargs groups lm : wf_dict (grouped_ds_kwargs groups lm).
Proof. apply (bool_decide_unpack _). vm_compute. exact I. Qed.

(** Without an override of [num_classes] and [label_mapping] a grouped
    descriptor keeps the class count and the mapping of its groups. *)
Lemma grouped_fields cls ds_name data_path groups m kwargs d :
  "num_classes" ∉ dict_keys kwargs → "label_mapping" ∉ dict_keys kwargs →
  DataSet.__init__ (new cls) ds_name data_path
    (dict_merge (grouped_ds_kwargs groups (VLabelMapping m)) kwargs) = Ok d →
  getattr d "num_classes" = Ok (VInt (Z.of_nat (length groups)))
  ∧ getattr d "label_mapping" = Ok (VLabelMapping m).
Proof.
  intros Hn Hl Hd. split.
  - rewrite (init_getattr _ _ _ _ _ _ Hd) by (by apply (bool_decide_unpack _)).
    by rewrite dict_get_merge_notin by (apply wf_grouped_ds_kwargs || done).
  - rewrite (init_getattr _ _ _ _ _ _ Hd) by (by apply (bool_decide_unpack _)).
    by rewrite dict_get_merge_notin by (apply wf_grouped_ds_kwargs || done).
Qed.

Lemma class_count_matches_of_fields d groups m n :
  Build groups n = Ok m →
  getattr d "num_classes" = Ok (VInt (Z.of_nat (length groups))) →
  getattr d "label_mapping" = Ok (VLabelMapping m) →
  class_count_matches d ∧ non_null d "label_mapping".
Proof.
  intros Hm Hn Hl. split.
  - intros lm Hlm _. rewrite Hl in Hlm. injection Hlm as <-.
    exists (length groups). split; [|done]. simpl. by rewrite (Build_group_count _ _ _ Hm).
  - exists (VLabelMapping m). split; [done | discriminate].
Qed.

(** ** C7 *)

(** C7, as stated, fails: on the [ImageNet] descriptor, with a registry
    that knows only resnet50, asking for resnet5000 without pretrained
    weights raises [KeyError], which is not a [ValueError]. *)
Lemma get_model_unknown_arch_not_ValueError :
  ∃ d, ImageNet.__init__ (new ImageNetClass) (VStr "/data/imagenet") [] = Ok d
     ∧ imagenet_models (Collaborators := Sample.collaborators) "resnet5000" = None
     ∧ get_model (H := Sample.collaborators) d "resnet5000" false
       = Raise (KeyError "resnet5000")
     ∧ ¬ fails_with_ValueError
           (get_model (H := Sample.collaborators) d "resnet5000" false).
Proof.
  eexists. split_and!; [reflexivity | reflexivity | reflexivity |].
  intros (e & He & Hc). vm_compute in He. injection He as <-. discriminate.
Qed.

(** C7, amended: on an instance of any concrete variant, [get_model] with
    [pretrained = False] and an architecture name that is not in the
    registry raises the [KeyError] of the failed lookup, carrying that
    name. *)
Theorem get_model_unknown_arch `{Collaborators} (self : object) (arch : string) :
  class_of self ≠ DataSetClass →
  imagenet_models arch = None →
  get_model self arch false = Raise (KeyError arch)
  ∧ class_of_exn (KeyError arch) = CKeyError.
Proof.
  intros Hcls Harch. split; [|reflexivity].
  unfold get_model, ImageNet.get_model, Places365.get_model,
    RestrictedImageNet.get_model, CustomImageNet.get_model, imagenet_models_item.
  rewrite Harch. by destruct (class_of self).
Qed.

Lemma get_model_unknown_arch_witness :
  get_model (H := Sample.collaborators) (new CustomImageNetClass) "vgg" false
  = Raise (KeyError "vgg").
Proof.
  apply (get_model_unknown_arch (H := Sample.collaborators)
           (new CustomImageNetClass) "vgg"); [discriminate | reflexivity].
Defined.

(** ** C8 *)

Lemma grouped_class_of `{Collaborators} data_path custom_grouping kwargs d :
  RestrictedImageNet.__init__ (new RestrictedImageNetClass) data_path kwargs = Ok d
  ∨ CustomImageNet.__init__ (new CustomImageNetClass) data_path custom_grouping kwargs
    = Ok d →
  class_of d = RestrictedImageNetClass ∨ class_of d = CustomImageNetClass.
Proof.
  intros [Hd|Hd].
  - apply RestrictedImageNet_init_inv in Hd as (m & _ & Hd).
    left. by rewrite (init_class_of _ _ _ _ _ Hd).
  - apply CustomImageNet_init_inv in Hd as (m & _ & Hd).
    right. by rewrite (init_class_of _ _ _ _ _ Hd).
Qed.

(** C8: on every descriptor built by [RestrictedImageNet] or by
    [CustomImageNet], [get_model] with [pretrained = True] raises a
    [ValueError], whatever the architecture name. *)
Theorem grouped_get_model_rejects_pretrained `{Collaborators}
    (data_path : value) (custom_grouping : list group) (kwargs : dict)
    (d : object) (arch : string) :
  RestrictedImageNet.__init__ (new RestrictedImageNetClass) data_path kwargs = Ok d
  ∨ CustomImageNet.__init__ (new CustomImageNetClass) data_path custom_grouping kwargs
    = Ok d →
  get_model d arch true = Raise NoPytorchPretrained
  ∧ fails_with_ValueError (get_model d arch true).
Proof.
  intros Hd. apply grouped_class_of in Hd.
  assert (Hg : get_model d arch true = Raise NoPytorchPretrained).
  { unfold get_model. by destruct Hd as [-> | ->]. }
  split; [done |]. rewrite Hg. by eexists.
Qed.

Lemma grouped_get_model_rejects_pretrained_witness :
  ∃ d, CustomImageNet.__init__ (H := Sample.collaborators) (new CustomImageNetClass)
         (VStr "/data/imagenet") [GIndices [0; 1]%Z; GRange 5 9] [] = Ok d
     ∧ get_model (H := Sample.collaborators) d "resnet50" true
       = Raise NoPytorchPretrained.
Proof.
  eexists. split; [vm_compute; reflexivity |].
  apply (grouped_get_model_rejects_pretrained (H := Sample.collaborators)
           (VStr "/data/imagenet") [GIndices [0; 1]%Z; GRange 5 9] []).
  right. vm_compute. reflexivity.
Defined.

(** ** C10 *)

(** C10, as stated, fails: on the [ImageNet] descriptor, with resnet18
    registered under a builder that has no pretrained weights, [get_model]
    with [pretrained = True] does not succeed: the builder's error comes
    back. *)
Lemma ImageNet_get_model_builder_failure :
  ∃ d, ImageNet.__init__ (new ImageNetClass) (VStr "/data/imagenet") [] = Ok d
     ∧ imagenet_models (Collaborators := Sample.collaborators_without_weights)
         "resnet18" = Some Sample.builder_without_weights
     ∧ get_model (H := Sample.collaborators_without_weights) d "resnet18" true
       = Raise (KeyError "resnet18")
     ∧ ¬ ∃ m, get_model (H := Sample.collaborators_without_weights) d "resnet18" true
              = Ok m.
Proof.
  eexists. split_and!; [reflexivity | reflexivity | reflexivity |].
  intros [m Hm]. vm_compute in Hm. discriminate.
Qed.

(** C10, amended: on every descriptor built by [ImageNet], [get_model] with
    an architecture of the registry is the call of its builder with the
    descriptor's [num_classes] and the [pretrained] flag as given; with
    [pretrained = True] it rejects nothing itself: it returns a model
    exactly when the builder, asked for pretrained weights, returns that
    model, and fails exactly with the builder's error. *)
Theorem ImageNet_get_model_forwards_pretrained `{Collaborators}
    (data_path : value) (kwargs : dict) (d : object) (arch : string)
    (builder : value → option bool → result Model) (pretrained : bool) :
  ImageNet.__init__ (new ImageNetClass) data_path kwargs = Ok d →
  imagenet_models arch = Some builder →
  ∃ num_classes, getattr d "num_classes" = Ok num_classes
    ∧ get_model d arch pretrained = builder num_classes (Some pretrained)
    ∧ (∀ m, builder num_classes (Some true) = Ok m ↔ get_model d arch true = Ok m)
    ∧ (∀ e, builder num_classes (Some true) = Raise e
            ↔ get_model d arch true = Raise e).
Proof.
  intros Hd%ImageNet_init_inv Harch.
  pose proof (init_class_of _ _ _ _ _ Hd) as Hcls. simpl in Hcls.
  eexists. split.
  - apply (init_getattr _ _ _ _ _ _ Hd). by apply (bool_decide_unpack _).
  - assert (Hcall : ∀ p, get_model d arch p
      = builder (default VNone (dict_get (dict_merge ImageNet.ds_kwargs kwargs)
                                  "num_classes")) (Some p)).
    { intros p. unfold get_model, ImageNet.get_model, imagenet_models_item.
      rewrite Hcls, Harch. unfold_result.
      rewrite (init_getattr _ _ _ _ _ _ Hd) by (by apply (bool_decide_unpack _)).
      reflexivity. }
    split_and!; [apply Hcall | intros m; by rewrite Hcall ..].
Qed.

Lemma ImageNet_get_model_forwards_pretrained_witness :
  ∃ d, ImageNet.__init__ (new ImageNetClass) (VStr "/data/imagenet") [] = Ok d
     ∧ get_model (H := Sample.collaborators) d "resnet50" true
       = Ok (VInt 1000, Some true).
Proof.
  eexists. split; [reflexivity |].
  match goal with |- get_model ?d _ _ = _ =>
    destruct (ImageNet_get_model_forwards_pretrained (H := Sample.collaborators)
                (VStr "/data/imagenet") [] d "resnet50" Sample.builder true
                eq_refl eq_refl) as (n & Hn & _ & Hok & _)
  end.
  apply Hok. vm_compute in Hn. injection Hn as <-. reflexivity.
Defined.

(** ** C9 *)

(** C9, as stated, fails: [RestrictedImageNet] built with the override
    [num_classes = 5] has the label mapping of the nine superclass ranges
    and a class count of 5. *)
Lemma restricted_num_classes_override :
  ∃ d, RestrictedImageNet.__init__ (H := Sample.collaborators)
         (new RestrictedImageNetClass) (VStr "/data/imagenet")
         [("num_classes", VInt 5)] = Ok d
     ∧ non_null d "label_mapping"
     ∧ (group_count <$> dict_get (attrs d) "label_mapping") = Some (Some 9%nat)
     ∧ getattr d "num_classes" = Ok (VInt 5)
     ∧ ¬ class_count_matches d.
Proof.
  eexists. split_and!; [vm_compute; reflexivity | | reflexivity | reflexivity |].
  - eexists. split; [reflexivity | discriminate].
  - intros Hm. edestruct Hm as (n & Hn & Hnc); [reflexivity | discriminate |].
    vm_compute in Hn. injection Hn as <-. vm_compute in Hnc. discriminate.
Qed.

(** C9, amended: a descriptor built by [RestrictedImageNet] or
    [CustomImageNet] with no override of [num_classes] and of
    [label_mapping] (in particular with no override at all) has a non-null
    label mapping and a class count equal to its number of groups, which is
    the number of hard-coded ranges, respectively the length of
    [custom_grouping]. *)
Theorem grouped_class_count `{Collaborators} (data_path : value)
    (custom_grouping : list group) (kwargs : dict) (d : object) :
  "num_classes" ∉ dict_keys kwargs → "label_mapping" ∉ dict_keys kwargs →
  (RestrictedImageNet.__init__ (new RestrictedImageNetClass) data_path kwargs = Ok d →
     getattr d "num_classes" = Ok (VInt (Z.of_nat (length RESTRICTED_IMAGNET_RANGES)))
     ∧ class_count_matches d ∧ non_null d "label_mapping")
  ∧ (CustomImageNet.__init__ (new CustomImageNetClass) data_path custom_grouping kwargs
     = Ok d →
     getattr d "num_classes" = Ok (VInt (Z.of_nat (length custom_grouping)))
     ∧ class_count_matches d ∧ non_null d "label_mapping").
Proof.
  intros Hn Hl. split.
  - intros (m & Hm & Hd)%RestrictedImageNet_init_inv.
    destruct (grouped_fields _ _ _ _ _ _ _ Hn Hl Hd) as [Hnc Hlm].
    split; [done |]. by apply (class_count_matches_of_fields _ _ _ _ Hm).
  - intros (m & Hm & Hd)%CustomImageNet_init_inv.
    destruct (grouped_fields _ _ _ _ _ _ _ Hn Hl Hd) as [Hnc Hlm].
    split; [done |]. by apply (class_count_matches_of_fields _ _ _ _ Hm).
Qed.

Lemma grouped_class_count_witness :
  ∃ d, RestrictedImageNet.__init__ (H := Sample.collaborators)
         (new RestrictedImageNetClass) (VStr "/data/imagenet") [] = Ok d
     ∧ getattr d "num_classes" = Ok (VInt 9)
     ∧ class_count_matches d.
Proof.
  eexists. split; [vm_compute; reflexivity |].
  match goal with |- getattr ?d _ = _ ∧ _ =>
    destruct (grouped_class_count (H := Sample.collaborators) (VStr "/data/imagenet")
                [] [] d (not_elem_of_nil _) (not_elem_of_nil _)) as [Hr _]
  end.
  destruct Hr as (Hnc & Hm & _); [vm_compute; reflexivity |].
  split; [exact Hnc | exact Hm].
Defined.


(** * Further properties of the module *)

(** ** More on dictionaries *)

Section dict_more.
Implicit Types (d e : dict) (k : string) (v : value).

Lemma dict_get_Some_key d k v : dict_get d k = Some v → k ∈ dict_keys d.
Proof.
  intros Hv. destruct (decide (k ∈ dict_keys d)) as [|Hn]; [done |].
  apply dict_get_None in Hn. congruence.
Qed.

Lemma elem_of_dict_keys_set d k v k' :
  k' ∈ dict_keys (dict_set d k v) ↔ k' = k ∨ k' ∈ dict_keys d.
Proof.
  rewrite dict_keys_set. case_decide as Hk.
  - split; [auto | intros [->|?]; done].
  - rewrite elem_of_app, list_elem_of_singleton. tauto.
Qed.

Lemma dict_keys_cons d k v : dict_keys ((k, v) :: d) = k :: dict_keys d.
Proof. reflexivity. Qed.

Lemma elem_of_dict_keys_update d e k :
  k ∈ dict_keys (dict_update d e) ↔ k ∈ dict_keys d ∨ k ∈ dict_keys e.
Proof.
  unfold dict_update. revert d. induction e as [|[k0 v0] e IH]; intros d.
  - cbn [fold_left]. change (dict_keys []) with (@nil string).
    rewrite elem_of_nil. tauto.
  - cbn [fold_left fst snd].
    rewrite IH, elem_of_dict_keys_set, dict_keys_cons, elem_of_cons. tauto.
Qed.

Lemma elem_of_dict_keys_merge d e k :
  k ∈ dict_keys (dict_merge d e) ↔ k ∈ dict_keys d ∨ k ∈ dict_keys e.
Proof.
  unfold dict_merge. rewrite !elem_of_dict_keys_update.
  change (dict_keys []) with (@nil string). rewrite elem_of_nil. tauto.
Qed.

Lemma dict_set_fresh d k v : k ∉ dict_keys d → dict_set d k v = (d ++ [(k, v)])%list.
Proof.
  unfold dict_keys. induction d as [|[k0 v0] d IH]; simpl; [done |].
  rewrite not_elem_of_cons. intros [Hne Hk].
  rewrite decide_False by congruence. by rewrite IH.
Qed.

(** Updating with bindings that are all new appends them in order. *)
Lemma dict_update_fresh d e :
  NoDup (dict_keys d ++ dict_keys e) → dict_update d e = (d ++ e)%list.
Proof.
  unfold dict_update. revert d. induction e as [|[k v] e IH]; intros d Hnd; simpl.
  - by rewrite app_nil_r.
  - assert (Hk : k ∉ dict_keys d).
    { apply NoDup_app in Hnd as (_ & Hdis & _). intros Hin.
      apply (Hdis k Hin). unfold dict_keys. simpl. apply list_elem_of_here. }
    rewrite dict_set_fresh by done. rewrite IH.
    + by rewrite <-app_assoc.
    + unfold dict_keys in *. rewrite fmap_app, <-app_assoc. exact Hnd.
Qed.

Lemma dict_merge_disjoint d e :
  wf_dict d → wf_dict e → (∀ k, k ∈ dict_keys e → k ∉ dict_keys d) →
  dict_merge d e = (d ++ e)%list.
Proof.
  intros Hd He Hdis. unfold dict_merge.
  rewrite (dict_update_fresh [] d) by done. simpl.
  apply dict_update_fresh. apply NoDup_app. split_and!; [done | | done].
  intros k Hk Hk'. by apply (Hdis k).
Qed.

Lemma filter_agree (P Q : string → Prop) `{!∀ x, Decision (P x), !∀ x, Decision (Q x)}
    (l : list string) :
  (∀ x, x ∈ l → P x ↔ Q x) → filter P l = filter Q l.
Proof.
  induction l as [|x l IH]; intros Hl; [done |].
  assert (Htl : filter P l = filter Q l).
  { apply IH. intros y Hy. apply Hl. by apply list_elem_of_further. }
  destruct (decide (P x)) as [HP|HP].
  - rewrite !filter_cons_True; [by rewrite Htl | | done].
    apply (Hl x); [apply list_elem_of_here | done].
  - rewrite !filter_cons_False; [done | | done].
    intros HQ. apply HP, (Hl x); [apply list_elem_of_here | done].
Qed.

(** The key order of an update: the old keys, then the new ones as they
    come. *)
Lemma dict_keys_update d e :
  wf_dict e →
  dict_keys (dict_update d e)
  = (dict_keys d ++ filter (λ k, k ∉ dict_keys d) (dict_keys e))%list.
Proof.
  unfold wf_dict, dict_update. revert d.
  induction e as [|[k v] e IH]; intros d Hnd.
  - cbn [fold_left]. change (dict_keys []) with (@nil string).
    by rewrite filter_nil, app_nil_r.
  - rewrite dict_keys_cons in *. apply NoDup_cons in Hnd as [Hk Hnd].
    cbn [fold_left fst snd]. rewrite IH by done. rewrite dict_keys_set.
    destruct (decide (k ∈ dict_keys d)) as [Hin|Hnin].
    + rewrite filter_cons_False by (intros ?; done). done.
    + rewrite filter_cons_True by done. rewrite <-app_assoc. simpl.
      do 2 f_equal. apply filter_agree.
      intros k' Hk'. rewrite elem_of_app, list_elem_of_singleton.
      split; [tauto |]. intros Hn [?| ->]; done.
Qed.

End dict_more.

(** ** More on [override_args] *)

Lemma not_offending_Ok default_args kwargs :
  (∀ k, ¬ offending default_args kwargs k) →
  DataSet.override_args default_args kwargs = Ok (dict_merge default_args kwargs).
Proof.
  intros Hno.
  destruct (DataSet.override_args default_args kwargs) as [m|e] eqn:E.
  - by rewrite (override_args_Ok _ _ _ E).
  - assert (Hr : raises (DataSet.override_args default_args kwargs))
      by (rewrite E; by eexists).
    apply raises_iff_offending in Hr as [k Hk]. by destruct (Hno k).
Qed.

Lemma Ok_not_offending default_args kwargs merged :
  DataSet.override_args default_args kwargs = Ok merged →
  ∀ k, ¬ offending default_args kwargs k.
Proof.
  intros HOk k Hk.
  assert (Hr : raises (DataSet.override_args default_args kwargs))
    by (apply raises_iff_offending; eauto).
  destruct Hr as [e He]. congruence.
Qed.

(** X5: overrides whose keys are all new are appended after the defaults, in
    the order they were passed; with no override the defaults come back as
    they are. *)
Theorem override_args_new_keys (default_args kwargs : dict) :
  wf_dict default_args → wf_dict kwargs →
  (∀ k, k ∈ dict_keys kwargs → k ∉ dict_keys default_args) →
  DataSet.override_args default_args kwargs = Ok (default_args ++ kwargs)%list
  ∧ DataSet.override_args default_args [] = Ok default_args.
Proof.
  intros Hd Hk Hdis. split.
  - rewrite not_offending_Ok.
    + by rewrite dict_merge_disjoint.
    + intros k (dv & ov & HD%dict_get_Some_key & HK%dict_get_Some_key & _).
      by apply (Hdis k).
  - rewrite not_offending_Ok.
    + rewrite dict_merge_disjoint; [by rewrite app_nil_r | done | apply NoDup_nil_2 |].
      intros k Hin. by apply elem_of_nil in Hin.
    + intros k (dv & ov & _ & HK & _). discriminate.
Qed.

Lemma override_args_new_keys_witness :
  DataSet.override_args ImageNet.ds_kwargs [("custom_class_args", VDict [])]
  = Ok (ImageNet.ds_kwargs ++ [("custom_class_args", VDict [])])%list.
Proof.
  apply (override_args_new_keys ImageNet.ds_kwargs [("custom_class_args", VDict [])]).
  - apply (bool_decide_unpack _). vm_compute. exact I.
  - apply (bool_decide_unpack _). vm_compute. exact I.
  - intros k ->%list_elem_of_singleton. by apply (bool_decide_unpack _).
Defined.

(** X6: the order of the keys of the merge: the keys of the defaults in their
    order, then the new keys of the overrides in theirs. *)
Theorem override_args_key_order (default_args kwargs merged : dict) :
  wf_dict default_args → wf_dict kwargs →
  DataSet.override_args default_args kwargs = Ok merged →
  dict_keys merged
  = (dict_keys default_args
     ++ filter (λ k, k ∉ dict_keys default_args) (dict_keys kwargs))%list.
Proof.
  intros Hd Hk ->%override_args_Ok. unfold dict_merge.
  rewrite dict_keys_update by done.
  rewrite (dict_update_fresh [] default_args) by done. reflexivity.
Qed.

Lemma override_args_key_order_witness :
  ∃ merged,
    DataSet.override_args [("a", VInt 5); ("b", VStr "x")]
      [("c", VInt 1); ("a", VInt 9)] = Ok merged
    ∧ dict_keys merged = ["a"; "b"; "c"].
Proof.
  eexists. split; [reflexivity |].
  apply (override_args_key_order [("a", VInt 5); ("b", VStr "x")]
           [("c", VInt 1); ("a", VInt 9)]).
  - apply (bool_decide_unpack _). vm_compute. exact I.
  - apply (bool_decide_unpack _). vm_compute. exact I.
  - reflexivity.
Defined.

(** X7: when no shared key has two set values of different runtime types,
    nothing is raised. *)
Theorem override_args_same_types (default_args kwargs : dict) :
  (∀ k, ¬ type_differs default_args kwargs k) →
  DataSet.override_args default_args kwargs = Ok (dict_merge default_args kwargs).
Proof.
  intros Hsame. apply not_offending_Ok.
  intros k Hk%offending_type_differs. by apply (Hsame k).
Qed.

Lemma override_args_same_types_witness :
  DataSet.override_args [("a", VInt 5)] [("a", VInt 9)] = Ok [("a", VInt 9)].
Proof.
  apply (override_args_same_types [("a", VInt 5)] [("a", VInt 9)]).
  intros k (dv & ov & Hd & Ho & _ & _ & Hne).
  simpl in Hd, Ho. case_decide; [|discriminate].
  injection Hd as <-. injection Ho as <-. by apply Hne.
Defined.

Lemma check_types_first default_args kwargs pre k post dv :
  (∀ k', k' ∈ (pre ++ k :: post)%list → k' ∈ dict_keys kwargs) →
  (∀ k', k' ∈ pre → ¬ offending default_args kwargs k') →
  offending default_args kwargs k →
  dict_get default_args k = Some dv →
  DataSet.check_types default_args kwargs (pre ++ k :: post)
  = Raise (ArgumentShouldHaveType k (type_of dv)).
Proof.
  intros Hks Hpre Hoff Hdv. induction pre as [|k0 pre IH]; simpl.
  - destruct Hoff as (dv' & ov & Hd & Ho & Hn1%is_not_None_true
                      & Hn2%is_not_None_true & Hi).
    rewrite Hd in Hdv. injection Hdv as ->.
    rewrite Hd. unfold dict_item. rewrite Ho. simpl. by rewrite Hn1, Hn2, Hi.
  - assert (Htl : DataSet.check_types default_args kwargs (pre ++ k :: post)
                  = Raise (ArgumentShouldHaveType k (type_of dv))).
    { apply IH.
      - intros k' Hk'. apply Hks. simpl. by apply list_elem_of_further.
      - intros k' Hk'. apply Hpre. by apply list_elem_of_further. }
    destruct (dict_get default_args k0) as [dv0|] eqn:Hd0; [|done].
    destruct (dict_get_is_Some kwargs k0) as [ov0 Ho0].
    { apply Hks. simpl. apply list_elem_of_here. }
    unfold dict_item. rewrite Ho0. simpl.
    destruct (is_not_None dv0) eqn:Hn1, (is_not_None ov0) eqn:Hn2; simpl; try done.
    destruct (isinstance ov0 (type_of dv0)) eqn:Hi; simpl; [done |].
    destruct (Hpre k0); [apply list_elem_of_here |].
    exists dv0, ov0. by rewrite <-!is_not_None_true.
Qed.

(** X8: of several rejected overrides, the error names the first one in the
    order the overrides were passed, with the type of its default. *)
Theorem override_args_first_offending (default_args kwargs : dict)
    (pre post : list string) (k : string) (dv : value) :
  dict_keys kwargs = (pre ++ k :: post)%list →
  (∀ k', k' ∈ pre → ¬ offending default_args kwargs k') →
  offending default_args kwargs k →
  dict_get default_args k = Some dv →
  DataSet.override_args default_args kwargs
  = Raise (ArgumentShouldHaveType k (type_of dv)).
Proof.
  intros Hkeys Hpre Hoff Hdv. unfold DataSet.override_args. rewrite Hkeys.
  rewrite (check_types_first _ _ _ _ _ dv); [done | | done..].
  intros k'. by rewrite <-Hkeys.
Qed.

Lemma override_args_first_offending_witness :
  DataSet.override_args ImageNet.ds_kwargs
    [("mean", VNone); ("std", VStr "x"); ("num_classes", VStr "y")]
  = Raise (ArgumentShouldHaveType "std" TTensor).
Proof.
  apply (override_args_first_offending ImageNet.ds_kwargs
           [("mean", VNone); ("std", VStr "x"); ("num_classes", VStr "y")]
           ["mean"] ["num_classes"] "std"
           (VTensor [229 # 1000; 224 # 1000; 225 # 1000]%Q)).
  - reflexivity.
  - intros k' ->%list_elem_of_singleton (dv & ov & _ & Ho & _ & Hov & _).
    vm_compute in Ho. injection Ho as <-. by apply Hov.
  - eexists _, _. split_and!; [reflexivity | reflexivity | done | done | reflexivity].
  - reflexivity.
Defined.

(** ** More on [DataSet.__init__] *)

(** X1: with every required argument present and no keyword naming [self],
    [ds_name] or [data_path], a key that is neither required nor optional
    is reported: the [ValueError] carries exactly the set of unrecognised
    keys. *)
Theorem init_unrecognized (self : object) (ds_name data_path : value) (kwargs : dict) :
  (∀ k, k ∈ dict_keys kwargs → k ∉ init_positional) →
  (∀ k, k ∈ DataSet.required_args → k ∈ dict_keys kwargs) →
  (∃ k, k ∈ dict_keys kwargs
        ∧ k ∉ (DataSet.required_args ++ DataSet.optional_args)%list) →
  ∃ extra,
    DataSet.__init__ self ds_name data_path kwargs = Raise (UnrecognizedArgs extra)
    ∧ class_of_exn (UnrecognizedArgs extra) = CValueError
    ∧ ∀ k, k ∈ extra ↔
        k ∈ dict_keys kwargs ∧ k ∉ (DataSet.required_args ++ DataSet.optional_args)%list.
Proof.
  intros Hb Hreq (k & Hk & Hn). eexists. split_and!.
  - unfold DataSet.__init__. rewrite bind_keywords_no_clash by done.
    unfold_result. cbv zeta. rewrite decide_False.
    + rewrite decide_True; [reflexivity |].
      apply size_pos_iff. exists k.
      apply elem_of_difference. by rewrite !elem_of_list_to_set.
    + rewrite size_pos_iff. intros [k' Hk'].
      apply elem_of_difference in Hk' as [Hin Hout]. apply Hout.
      apply elem_of_list_to_set, Hreq. by apply elem_of_list_to_set in Hin.
  - reflexivity.
  - intros k'. by rewrite elem_of_difference, !elem_of_list_to_set.
Qed.

Lemma init_unrecognized_witness :
  ∃ extra,
    DataSet.__init__ (new DataSetClass) (VStr "cifar") (VStr "/tmp/cifar")
      (Sample.five_required ++ [("bogus", VInt 1)])%list = Raise (UnrecognizedArgs extra)
    ∧ "bogus" ∈ extra ∧ "mean" ∉ extra.
Proof.
  destruct (init_unrecognized (new DataSetClass) (VStr "cifar") (VStr "/tmp/cifar")
              (Sample.five_required ++ [("bogus", VInt 1)])%list)
    as (extra & He & _ & Hin).
  - intros k Hk. vm_compute in Hk.
    repeat (apply elem_of_cons in Hk as [->|Hk]);
      [by apply (bool_decide_unpack _) .. | by apply elem_of_nil in Hk].
  - intros k Hk. unfold DataSet.required_args in Hk.
    repeat (apply elem_of_cons in Hk as [->|Hk]);
      [by apply (bool_decide_unpack _) .. | by apply elem_of_nil in Hk].
  - exists "bogus". split; by apply (bool_decide_unpack _).
  - exists extra. split; [exact He |]. split.
    + apply Hin. split; by apply (bool_decide_unpack _).
    + intros [_ Hn]%Hin. apply Hn. by apply (bool_decide_unpack _).
Defined.

(** X2: [DataSet.__init__] succeeds exactly when every required argument is
    passed and every key passed is a required or an optional one. *)
Theorem init_succeeds_iff (self : object) (ds_name data_path : value) (kwargs : dict) :
  (∃ d, DataSet.__init__ self ds_name data_path kwargs = Ok d)
  ↔ (∀ k, k ∈ DataSet.required_args → k ∈ dict_keys kwargs)
    ∧ (∀ k, k ∈ dict_keys kwargs →
         k ∈ (DataSet.required_args ++ DataSet.optional_args)%list).
Proof.
  split.
  - intros [d Hd]. by apply (init_Ok_keys _ _ _ _ _ Hd).
  - intros [Hreq Hall]. by apply init_succeeds.
Qed.

Lemma init_succeeds_iff_witness :
  ∃ d, DataSet.__init__ (new DataSetClass) (VStr "cifar") (VStr "/tmp/cifar")
         (Sample.five_required ++ [("custom_class", VClass (TUser "CIFAR10" TObject))])%list
       = Ok d.
Proof.
  apply (init_succeeds_iff (new DataSetClass) (VStr "cifar") (VStr "/tmp/cifar")
    (Sample.five_required ++ [("custom_class", VClass (TUser "CIFAR10" TObject))])%list).
  split; intros k Hk.
  - unfold DataSet.required_args in Hk.
    repeat (apply elem_of_cons in Hk as [->|Hk]);
      [by apply (bool_decide_unpack _) .. | by apply elem_of_nil in Hk].
  - vm_compute in Hk.
    repeat (apply elem_of_cons in Hk as [->|Hk]);
      [by apply (bool_decide_unpack _) .. | by apply elem_of_nil in Hk].
Defined.

Lemma wf_final_kwargs kwargs : wf_dict (DataSet.final_kwargs kwargs).
Proof. apply (bool_decide_unpack _). vm_compute. exact I. Qed.

Lemma dict_keys_final_kwargs kwargs :
  dict_keys (DataSet.final_kwargs kwargs)
  = (DataSet.required_args ++ DataSet.optional_args)%list.
Proof. reflexivity. Qed.

Lemma dict_get_final_kwargs kwargs k :
  k ∈ (DataSet.required_args ++ DataSet.optional_args)%list →
  dict_get (DataSet.final_kwargs kwargs) k = Some (default VNone (dict_get kwargs k)).
Proof.
  intros Hk. unfold DataSet.required_args, DataSet.optional_args in Hk. simpl in Hk.
  repeat (apply elem_of_cons in Hk as [->|Hk]);
    [reflexivity .. | by apply elem_of_nil in Hk].
Qed.

(** X3: on whatever object [DataSet.__init__] runs, on success it sets
    [ds_name], [data_path] and the eight fields (each to the value passed
    for it, or [None]), keeps the class, and leaves every other attribute
    of the object as it was. *)
Theorem init_sets_ten_attributes (self d : object) (ds_name data_path : value)
    (kwargs : dict) :
  DataSet.__init__ self ds_name data_path kwargs = Ok d →
  class_of d = class_of self
  ∧ getattr d "ds_name" = Ok ds_name
  ∧ getattr d "data_path" = Ok data_path
  ∧ (∀ k, k ∈ (DataSet.required_args ++ DataSet.optional_args)%list →
       getattr d k = Ok (default VNone (dict_get kwargs k)))
  ∧ (∀ k, k ∉ ("ds_name" :: "data_path"
               :: DataSet.required_args ++ DataSet.optional_args)%list →
       getattr d k = getattr self k).
Proof.
  intros Hd. split; [by apply (init_class_of _ _ _ _ _ Hd) |].
  assert (Hattrs : attrs d
    = dict_update (dict_set (dict_set (attrs self) "ds_name" ds_name)
                     "data_path" data_path) (DataSet.final_kwargs kwargs)).
  { revert Hd. init_bound.
    repeat case_decide; try discriminate. by intros [= <-]. }
  unfold getattr. rewrite Hattrs. split_and!.
  - rewrite dict_get_update_notin by (by apply (bool_decide_unpack _)).
    rewrite !dict_get_set. reflexivity.
  - rewrite dict_get_update_notin by (by apply (bool_decide_unpack _)).
    rewrite !dict_get_set. reflexivity.
  - intros k Hk. rewrite dict_get_update by apply wf_final_kwargs.
    by rewrite dict_get_final_kwargs.
  - intros k Hk. apply not_elem_of_cons in Hk as [Hn1 Hk].
    apply not_elem_of_cons in Hk as [Hn2 Hk].
    rewrite dict_get_update_notin by (by rewrite dict_keys_final_kwargs).
    rewrite !dict_get_set. by rewrite !decide_False by done.
Qed.

Lemma init_sets_ten_attributes_witness :
  ∃ d, DataSet.__init__ (mkObject DataSetClass [("note", VStr "x"); ("mean", VInt 0)])
         (VStr "cifar") (VStr "/tmp/cifar") Sample.five_required = Ok d
     ∧ getattr d "note" = Ok (VStr "x")
     ∧ getattr d "mean" = Ok (VTensor [4914 # 10000; 4822 # 10000; 4465 # 10000]%Q)
     ∧ getattr d "label_mapping" = Ok VNone.
Proof.
  eexists. split; [reflexivity |].
  match goal with |- getattr ?d _ = _ ∧ _ =>
    destruct (init_sets_ten_attributes
                (mkObject DataSetClass [("note", VStr "x"); ("mean", VInt 0)]) d
                (VStr "cifar") (VStr "/tmp/cifar") Sample.five_required eq_refl)
      as (_ & _ & _ & Hset & Hkeep)
  end.
  split_and!.
  - rewrite Hkeep; [reflexivity | by apply (bool_decide_unpack _)].
  - rewrite Hset; [reflexivity | by apply (bool_decide_unpack _)].
  - rewrite Hset; [reflexivity | by apply (bool_decide_unpack _)].
Defined.

(** ** The pattern shared by the variant constructors *)

Lemma init_Raise self ds_name data_path kwargs e :
  DataSet.__init__ self ds_name data_path kwargs = Raise e →
  (∃ name, e = MultipleValues name ∧ name ∈ init_positional
           ∧ name ∈ dict_keys kwargs)
  ∨ (e = MissingRequiredArgs
           (list_to_set DataSet.required_args ∖ list_to_set (dict_keys kwargs))
     ∧ ∃ k, k ∈ DataSet.required_args ∧ k ∉ dict_keys kwargs)
  ∨ e = UnrecognizedArgs
          (list_to_set (dict_keys kwargs)
           ∖ list_to_set (DataSet.required_args ++ DataSet.optional_args)%list).
Proof.
  unfold DataSet.__init__.
  destruct (bind_keywords init_positional kwargs) as [kw|e0] eqn:Hb.
  - apply bind_keywords_Ok in Hb as ->. unfold_result. cbv zeta.
    case_decide as Hm; [|case_decide as He; [|discriminate]]; intros [= <-].
    + right. left. split; [done |]. apply size_pos_iff in Hm as [k Hk].
      apply elem_of_difference in Hk as [Hin Hout]. exists k.
      by rewrite !elem_of_list_to_set in Hin, Hout.
    + by right; right.
  - intros [= <-]. left. by apply bind_keywords_Raise in Hb.
Qed.

Section variant_pattern.
Variables (ds_name data_path : value) (own : list string) (defaults kwargs : dict).
Hypothesis own_parameters :
  ∀ name, name ∈ own → name ∈ ["self"; "ds_name"; "data_path"; "custom_grouping"].
Hypothesis defaults_wf : wf_dict defaults.
Hypothesis defaults_required :
  ∀ k, k ∈ DataSet.required_args → k ∈ dict_keys defaults.
Hypothesis defaults_fields :
  ∀ k, k ∈ dict_keys defaults → k ∈ (DataSet.required_args ++ DataSet.optional_args)%list.

Lemma pattern_succeeds_iff self :
  (∃ d, (kwargs ← bind_keywords own kwargs;
         ds_kwargs ← DataSet.override_args defaults kwargs;
         DataSet.__init__ self ds_name data_path ds_kwargs) = Ok d)
  ↔ (∀ k, ¬ offending defaults kwargs k)
    ∧ (∀ k, k ∈ dict_keys kwargs →
         k ∈ (DataSet.required_args ++ DataSet.optional_args)%list).
Proof.
  split.
  - intros [d Hd%entry_bound]. split.
    + intros k Hk.
      assert (Hr : raises (DataSet.override_args defaults kwargs))
        by (apply raises_iff_offending; eauto).
      destruct Hr as [e He]. rewrite He in Hd. discriminate.
    + apply override_then_init, init_Ok_keys in Hd as [_ Hall].
      intros k Hk. apply Hall, elem_of_dict_keys_merge. by right.
  - intros [Hno Hall]. rewrite bind_keywords_fields by done.
    unfold_result. cbv beta iota. rewrite not_offending_Ok by done.
    apply init_succeeds.
    + intros k Hk. apply elem_of_dict_keys_merge. left. by apply defaults_required.
    + intros k [?|?]%elem_of_dict_keys_merge; auto.
Qed.

Lemma pattern_fields cls d k :
  wf_dict kwargs →
  DataSet.__init__ (new cls) ds_name data_path (dict_merge defaults kwargs) = Ok d →
  k ∈ (DataSet.required_args ++ DataSet.optional_args)%list →
  getattr d k = Ok (resolved defaults kwargs k).
Proof.
  intros Hwf Hd Hk.
  rewrite (init_getattr _ _ _ _ _ _ Hd) by done.
  rewrite dict_get_merge by done. unfold resolved.
  by destruct (dict_get kwargs k).
Qed.

Lemma pattern_Raise self e :
  (∀ name, name ∈ own → name ∈ init_positional) →
  (kwargs ← bind_keywords own kwargs;
   ds_kwargs ← DataSet.override_args defaults kwargs;
   DataSet.__init__ self ds_name data_path ds_kwargs) = Raise e →
  (∃ k dv, offending defaults kwargs k ∧ dict_get defaults k = Some dv
           ∧ e = ArgumentShouldHaveType k (type_of dv))
  ∨ (∃ name, e = MultipleValues name ∧ name ∈ init_positional
             ∧ name ∈ dict_keys kwargs)
  ∨ (∃ extra, e = UnrecognizedArgs extra
       ∧ ∀ k, k ∈ extra ↔
           k ∈ dict_keys kwargs
           ∧ k ∉ (DataSet.required_args ++ DataSet.optional_args)%list).
Proof.
  intros Hown. unfold_result.
  destruct (bind_keywords own kwargs) as [kw|e0] eqn:Hb.
  - apply bind_keywords_Ok in Hb as ->. unfold DataSet.override_args. unfold_result.
    destruct (DataSet.check_types _ _ _) as [[]|e0] eqn:Hc.
    + intros [(name & -> & Hpos & Hin)|[[_ (k & Hk & Hn)]| ->]]%init_Raise.
      * right. left. exists name. split_and!; [done.. |].
        apply elem_of_dict_keys_merge in Hin as [Hd|Hk]; [|done].
        apply defaults_fields in Hd. by apply positional_not_field in Hpos.
      * destruct Hn. apply elem_of_dict_keys_merge. left. by apply defaults_required.
      * right. right. eexists. split; [done |]. intros k.
        rewrite elem_of_difference, !elem_of_list_to_set, elem_of_dict_keys_merge.
        split; [|tauto]. intros [[Hd|Hk] Hn]; [|done].
        destruct Hn. by apply defaults_fields.
    + intros [= <-]. left.
      apply check_types_raise in Hc as (k & dv & _ & ? & ? & ->); [|done]. eauto.
  - intros [= <-]. apply bind_keywords_Raise in Hb as (name & -> & Hpos & Hin).
    right. left. exists name. split_and!; [done | by apply Hown | done].
Qed.

End variant_pattern.

(** Decides an inclusion between two explicit lists of names. *)
Ltac solve_names :=
  let k := fresh "k" in
  let Hk := fresh "Hk" in
  intros k Hk; vm_compute in Hk;
  repeat (apply elem_of_cons in Hk as [->|Hk]);
  [by apply (bool_decide_unpack _) .. | by apply elem_of_nil in Hk].

Lemma ImageNet_defaults :
  wf_dict ImageNet.ds_kwargs
  ∧ (∀ k, k ∈ DataSet.required_args → k ∈ dict_keys ImageNet.ds_kwargs)
  ∧ (∀ k, k ∈ dict_keys ImageNet.ds_kwargs →
       k ∈ (DataSet.required_args ++ DataSet.optional_args)%list).
Proof.
  split_and!; [apply (bool_decide_unpack _); vm_compute; exact I | solve_names..].
Qed.

Lemma Places365_defaults :
  wf_dict Places365.ds_kwargs
  ∧ (∀ k, k ∈ DataSet.required_args → k ∈ dict_keys Places365.ds_kwargs)
  ∧ (∀ k, k ∈ dict_keys Places365.ds_kwargs →
       k ∈ (DataSet.required_args ++ DataSet.optional_args)%list).
Proof.
  split_and!; [apply (bool_decide_unpack _); vm_compute; exact I | solve_names..].
Qed.

Lemma grouped_defaults groups lm :
  wf_dict (grouped_ds_kwargs groups lm)
  ∧ (∀ k, k ∈ DataSet.required_args → k ∈ dict_keys (grouped_ds_kwargs groups lm))
  ∧ (∀ k, k ∈ dict_keys (grouped_ds_kwargs groups lm) →
       k ∈ (DataSet.required_args ++ DataSet.optional_args)%list).
Proof.
  split_and!; [apply wf_grouped_ds_kwargs | solve_names..].
Qed.

(** ** The full-label variants: [ImageNet] and [Places365] *)

(** X9: [ImageNet.__init__] and [Places365.__init__] succeed exactly when no
    override is rejected by the type check against the variant's defaults
    and every override key is one of the eight field names. *)
Theorem full_label_init_succeeds_iff (self : object) (data_path : value) (kwargs : dict) :
  ((∃ d, ImageNet.__init__ self data_path kwargs = Ok d)
   ↔ (∀ k, ¬ offending ImageNet.ds_kwargs kwargs k)
     ∧ (∀ k, k ∈ dict_keys kwargs →
          k ∈ (DataSet.required_args ++ DataSet.optional_args)%list))
  ∧ ((∃ d, Places365.__init__ self data_path kwargs = Ok d)
     ↔ (∀ k, ¬ offending Places365.ds_kwargs kwargs k)
       ∧ (∀ k, k ∈ dict_keys kwargs →
            k ∈ (DataSet.required_args ++ DataSet.optional_args)%list)).
Proof.
  split.
  - destruct ImageNet_defaults as (? & ? & ?).
    apply (pattern_succeeds_iff (VStr "imagenet") data_path ["self"; "data_path"]);
      [solve_names | done..].
  - destruct Places365_defaults as (? & ? & ?).
    apply (pattern_succeeds_iff (VStr "places365") data_path ["self"; "data_path"]);
      [solve_names | done..].
Qed.

Lemma full_label_init_succeeds_iff_witness :
  ∃ d, ImageNet.__init__ (new ImageNetClass) (VStr "/data/imagenet")
         [("num_classes", VInt 10); ("mean", VNone);
          ("custom_class_args", VDict [])] = Ok d.
Proof.
  apply (full_label_init_succeeds_iff (new ImageNetClass) (VStr "/data/imagenet")
           [("num_classes", VInt 10); ("mean", VNone); ("custom_class_args", VDict [])]).
  split.
  - eapply Ok_not_offending. reflexivity.
  - solve_names.
Defined.

(** X10: on a descriptor built by [ImageNet] or [Places365] the name is that of
    the variant, [data_path] is the path given, and each of the eight
    fields is the override passed for it, else the variant's default, else
    [None]. *)
Theorem full_label_init_fields (data_path : value) (kwargs : dict) (d : object) :
  wf_dict kwargs →
  (ImageNet.__init__ (new ImageNetClass) data_path kwargs = Ok d →
     class_of d = ImageNetClass
     ∧ getattr d "ds_name" = Ok (VStr "imagenet")
     ∧ getattr d "data_path" = Ok data_path
     ∧ ∀ k, k ∈ (DataSet.required_args ++ DataSet.optional_args)%list →
         getattr d k = Ok (resolved ImageNet.ds_kwargs kwargs k))
  ∧ (Places365.__init__ (new Places365Class) data_path kwargs = Ok d →
     class_of d = Places365Class
     ∧ getattr d "ds_name" = Ok (VStr "places365")
     ∧ getattr d "data_path" = Ok data_path
     ∧ ∀ k, k ∈ (DataSet.required_args ++ DataSet.optional_args)%list →
         getattr d k = Ok (resolved Places365.ds_kwargs kwargs k)).
Proof.
  intros Hwf. split; intros Hd.
  - pose proof (ImageNet_init_inv _ _ _ _ Hd) as Hi.
    split_and!; [by rewrite (init_new _ _ _ _ _ Hi) .. |]. intros k Hk.
    apply (pattern_fields _ _ _ _ (proj1 ImageNet_defaults) _ _ _ Hwf Hi Hk).
  - pose proof (Places365_init_inv _ _ _ _ Hd) as Hi.
    split_and!; [by rewrite (init_new _ _ _ _ _ Hi) .. |]. intros k Hk.
    apply (pattern_fields _ _ _ _ (proj1 Places365_defaults) _ _ _ Hwf Hi Hk).
Qed.

Lemma full_label_init_fields_witness :
  ∃ d, Places365.__init__ (new Places365Class) (VStr "/data/places")
         [("num_classes", VInt 10); ("mean", VNone)] = Ok d
     ∧ getattr d "num_classes" = Ok (VInt 10)
     ∧ getattr d "mean" = Ok VNone
     ∧ getattr d "transform_test" = Ok (VCompose "TEST_TRANSFORMS_DEFAULT(256)")
     ∧ getattr d "custom_class_args" = Ok VNone.
Proof.
  eexists. split; [reflexivity |].
  match goal with |- getattr ?d _ = _ ∧ _ =>
    destruct (full_label_init_fields (VStr "/data/places")
                [("num_classes", VInt 10); ("mean", VNone)] d) as [_ Hp]
  end.
  { apply (bool_decide_unpack _). vm_compute. exact I. }
  destruct (Hp eq_refl) as (_ & _ & _ & Hf).
  split_and!; (rewrite Hf; [reflexivity | by apply (bool_decide_unpack _)]).
Defined.

(** X11: the ways [ImageNet.__init__] and [Places365.__init__] fail: an
    override rejected by the type check, a keyword naming a positional
    parameter of [DataSet.__init__], or the set of override keys that are
    not field names.  A missing required argument is never reported, the
    defaults providing all five. *)
Theorem full_label_init_errors (self : object) (data_path : value) (kwargs : dict)
    (e : exn) :
  ImageNet.__init__ self data_path kwargs = Raise e
  ∨ Places365.__init__ self data_path kwargs = Raise e →
  (∃ k req_type, e = ArgumentShouldHaveType k req_type)
  ∨ (∃ name, e = MultipleValues name ∧ name ∈ init_positional
             ∧ name ∈ dict_keys kwargs)
  ∨ (∃ extra, e = UnrecognizedArgs extra
       ∧ ∀ k, k ∈ extra ↔
           k ∈ dict_keys kwargs
           ∧ k ∉ (DataSet.required_args ++ DataSet.optional_args)%list).
Proof.
  intros [He|He].
  - destruct ImageNet_defaults as (Hwf & Hreq & Hf).
    pose proof (pattern_Raise (VStr "imagenet") data_path ["self"; "data_path"]
                  ImageNet.ds_kwargs kwargs Hreq Hf self e) as HR.
    destruct HR as [(k & dv & _ & _ & ->)|[?|?]]; [solve_names | exact He | eauto..].
  - destruct Places365_defaults as (Hwf & Hreq & Hf).
    pose proof (pattern_Raise (VStr "places365") data_path ["self"; "data_path"]
                  Places365.ds_kwargs kwargs Hreq Hf self e) as HR.
    destruct HR as [(k & dv & _ & _ & ->)|[?|?]]; [solve_names | exact He | eauto..].
Qed.

Lemma full_label_init_errors_witness :
  ∃ extra,
    ImageNet.__init__ (new ImageNetClass) (VStr "/data/imagenet")
      [("resolution", VInt 224)] = Raise (UnrecognizedArgs extra)
    ∧ "resolution" ∈ extra.
Proof.
  destruct (ImageNet.__init__ (new ImageNetClass) (VStr "/data/imagenet")
              [("resolution", VInt 224)]) as [d|e] eqn:E;
    [vm_compute in E; discriminate |].
  destruct (full_label_init_errors (new ImageNetClass) (VStr "/data/imagenet")
              [("resolution", VInt 224)] e (or_introl E))
    as [(k & t & ->)|[(name & -> & _)|(extra & -> & Hin)]];
    [vm_compute in E; discriminate | vm_compute in E; discriminate |].
  exists extra. split; [reflexivity |].
  apply Hin. split; by apply (bool_decide_unpack _).
Defined.

(** ** The grouped variants: [RestrictedImageNet] and [CustomImageNet] *)

(** X12: on a descriptor built by [RestrictedImageNet] or [CustomImageNet] the
    name is that of the variant, [data_path] is the path given, and each
    field is the override passed for it, else the default computed from
    the groups: their number for [num_classes], their mapping for
    [label_mapping]. *)
Theorem grouped_init_fields `{Collaborators} (data_path : value)
    (custom_grouping : list group) (kwargs : dict) (d : object) :
  wf_dict kwargs →
  (RestrictedImageNet.__init__ (new RestrictedImageNetClass) data_path kwargs = Ok d →
     ∃ lm, get_label_mapping "restricted_imagenet" RESTRICTED_IMAGNET_RANGES = Ok lm
       ∧ class_of d = RestrictedImageNetClass
       ∧ getattr d "ds_name" = Ok (VStr "restricted_imagenet")
       ∧ getattr d "data_path" = Ok data_path
       ∧ ∀ k, k ∈ (DataSet.required_args ++ DataSet.optional_args)%list →
           getattr d k
           = Ok (resolved (grouped_ds_kwargs RESTRICTED_IMAGNET_RANGES lm) kwargs k))
  ∧ (CustomImageNet.__init__ (new CustomImageNetClass) data_path custom_grouping kwargs
     = Ok d →
     ∃ lm, get_label_mapping "custom_imagenet" custom_grouping = Ok lm
       ∧ class_of d = CustomImageNetClass
       ∧ getattr d "ds_name" = Ok (VStr "custom_imagenet")
       ∧ getattr d "data_path" = Ok data_path
       ∧ ∀ k, k ∈ (DataSet.required_args ++ DataSet.optional_args)%list →
           getattr d k = Ok (resolved (grouped_ds_kwargs custom_grouping lm) kwargs k)).
Proof.
  intros Hwf. split.
  - intros (m & Hm & Hi)%RestrictedImageNet_init_inv.
    exists (VLabelMapping m). split; [unfold get_label_mapping; by rewrite Hm |].
    split_and!; [by rewrite (init_new _ _ _ _ _ Hi) .. |]. intros k Hk.
    apply (pattern_fields _ _ _ _ (wf_grouped_ds_kwargs _ _) _ _ _ Hwf Hi Hk).
  - intros (m & Hm & Hi)%CustomImageNet_init_inv.
    exists (VLabelMapping m). split; [unfold get_label_mapping; by rewrite Hm |].
    split_and!; [by rewrite (init_new _ _ _ _ _ Hi) .. |]. intros k Hk.
    apply (pattern_fields _ _ _ _ (wf_grouped_ds_kwargs _ _) _ _ _ Hwf Hi Hk).
Qed.

Lemma grouped_init_fields_witness :
  ∃ d, CustomImageNet.__init__ (H := Sample.collaborators) (new CustomImageNetClass)
         (VStr "/data/imagenet") [GIndices [0; 1]%Z; GRange 5 9]
         [("std", VNone)] = Ok d
     ∧ getattr d "num_classes" = Ok (VInt 2)
     ∧ getattr d "std" = Ok VNone.
Proof.
  eexists. split; [vm_compute; reflexivity |].
  match goal with |- getattr ?d _ = _ ∧ _ =>
    destruct (grouped_init_fields (H := Sample.collaborators) (VStr "/data/imagenet")
                [GIndices [0; 1]%Z; GRange 5 9] [("std", VNone)] d) as [_ Hc]
  end.
  { apply (bool_decide_unpack _). vm_compute. exact I. }
  destruct Hc as (lm & Hlm & _ & _ & _ & Hf); [vm_compute; reflexivity |].
  split; (rewrite Hf; [reflexivity | by apply (bool_decide_unpack _)]).
Defined.

(** ** More on [get_model] *)

(** X13: on a descriptor built by [ImageNet] or [Places365], [get_model] calls
    the builder registered under the architecture name with the overridden
    [num_classes] if one was passed (1000, respectively 365, otherwise) and
    with the [pretrained] flag. *)
Theorem full_label_get_model_num_classes `{Collaborators} (data_path : value)
    (kwargs : dict) (d : object) (arch : string)
    (builder : value → option bool → result Model) (pretrained : bool) :
  wf_dict kwargs →
  imagenet_models arch = Some builder →
  (ImageNet.__init__ (new ImageNetClass) data_path kwargs = Ok d →
     get_model d arch pretrained
     = builder (resolved ImageNet.ds_kwargs kwargs "num_classes") (Some pretrained))
  ∧ (Places365.__init__ (new Places365Class) data_path kwargs = Ok d →
     get_model d arch pretrained
     = builder (resolved Places365.ds_kwargs kwargs "num_classes") (Some pretrained)).
Proof.
  intros Hwf Harch. split; intros Hd.
  - pose proof (ImageNet_init_inv _ _ _ _ Hd) as Hi.
    pose proof (init_class_of _ _ _ _ _ Hi) as Hcls. simpl in Hcls.
    unfold get_model, ImageNet.get_model, imagenet_models_item.
    rewrite Hcls, Harch. unfold_result.
    rewrite (pattern_fields _ _ _ _ (proj1 ImageNet_defaults) _ _ _ Hwf Hi)
      by (by apply (bool_decide_unpack _)).
    reflexivity.
  - pose proof (Places365_init_inv _ _ _ _ Hd) as Hi.
    pose proof (init_class_of _ _ _ _ _ Hi) as Hcls. simpl in Hcls.
    unfold get_model, Places365.get_model, imagenet_models_item.
    rewrite Hcls, Harch. unfold_result.
    rewrite (pattern_fields _ _ _ _ (proj1 Places365_defaults) _ _ _ Hwf Hi)
      by (by apply (bool_decide_unpack _)).
    reflexivity.
Qed.

Lemma full_label_get_model_num_classes_witness :
  ∃ d, Places365.__init__ (new Places365Class) (VStr "/data/places")
         [("num_classes", VInt 10)] = Ok d
     ∧ get_model (H := Sample.collaborators) d "resnet50" false
       = Ok (VInt 10, Some false).
Proof.
  eexists. split; [reflexivity |].
  match goal with |- get_model ?d _ _ = _ =>
    destruct (full_label_get_model_num_classes (H := Sample.collaborators)
                (VStr "/data/places") [("num_classes", VInt 10)] d "resnet50"
                Sample.builder false) as [_ Hp]
  end.
  - apply (bool_decide_unpack _). vm_compute. exact I.
  - reflexivity.
  - rewrite Hp; reflexivity.
Defined.

(** X14: on a descriptor built by [RestrictedImageNet] or [CustomImageNet],
    [get_model] without pretrained weights calls the builder registered
    under the architecture name with the descriptor's [num_classes] and
    without any [pretrained] argument. *)
Theorem grouped_get_model_not_pretrained `{Collaborators} (data_path : value)
    (custom_grouping : list group) (kwargs : dict) (d : object) (arch : string)
    (builder : value → option bool → result Model) :
  RestrictedImageNet.__init__ (new RestrictedImageNetClass) data_path kwargs = Ok d
  ∨ CustomImageNet.__init__ (new CustomImageNetClass) data_path custom_grouping kwargs
    = Ok d →
  imagenet_models arch = Some builder →
  ∃ num_classes, getattr d "num_classes" = Ok num_classes
    ∧ get_model d arch false = builder num_classes None.
Proof.
  intros Hd Harch.
  assert (Hi : ∃ ds_name kw cls, DataSet.__init__ (new cls) ds_name data_path kw = Ok d).
  { destruct Hd as [Hd|Hd].
    - apply RestrictedImageNet_init_inv in Hd as (m & _ & Hd). eauto.
    - apply CustomImageNet_init_inv in Hd as (m & _ & Hd). eauto. }
  destruct Hi as (ds_name & kw & cls & Hi).
  pose proof (init_getattr _ _ _ _ _ "num_classes" Hi) as Hn.
  eexists. split; [apply Hn; by apply (bool_decide_unpack _) |].
  apply grouped_class_of in Hd.
  unfold get_model, RestrictedImageNet.get_model, CustomImageNet.get_model,
    imagenet_models_item.
  rewrite Harch. unfold_result.
  rewrite Hn by (by apply (bool_decide_unpack _)).
  by destruct Hd as [-> | ->].
Qed.

Lemma grouped_get_model_not_pretrained_witness :
  ∃ d, RestrictedImageNet.__init__ (H := Sample.collaborators)
         (new RestrictedImageNetClass) (VStr "/data/imagenet") [] = Ok d
     ∧ get_model (H := Sample.collaborators) d "resnet50" false = Ok (VInt 9, None).
Proof.
  eexists. split; [vm_compute; reflexivity |].
  match goal with |- get_model ?d _ _ = _ =>
    destruct (grouped_get_model_not_pretrained (H := Sample.collaborators)
                (VStr "/data/imagenet") [] [] d "resnet50" Sample.builder)
      as (n & Hn & Hg)
  end.
  - left. vm_compute. reflexivity.
  - reflexivity.
  - rewrite Hg. vm_compute in Hn. injection Hn as <-. reflexivity.
Defined.

(** X15: a descriptor of the base class itself has no architecture: [get_model]
    raises [NotImplementedError] whatever the name and the flag, before any
    lookup in the registry. *)
Theorem base_get_model_not_implemented `{Collaborators} (ds_name data_path : value)
    (kwargs : dict) (d : object) (arch : string) (pretrained : bool) :
  DataSet.__init__ (new DataSetClass) ds_name data_path kwargs = Ok d →
  get_model d arch pretrained = Raise NotImplementedError.
Proof.
  intros Hd%init_class_of. unfold get_model. by rewrite Hd.
Qed.

Lemma base_get_model_not_implemented_witness :
  ∃ d, DataSet.__init__ (new DataSetClass) (VStr "cifar") (VStr "/tmp/cifar")
         Sample.five_required = Ok d
     ∧ get_model (H := Sample.collaborators) d "resnet50" false
       = Raise NotImplementedError.
Proof.
  eexists. split; [reflexivity |].
  by apply (base_get_model_not_implemented (H := Sample.collaborators)
              (VStr "cifar") (VStr "/tmp/cifar") Sample.five_required).
Defined.

(** ** [DATASETS] *)

Lemma built_by_init `{Collaborators} cls d :
  built_by cls d →
  (∃ name data_path kw,
     DataSet.__init__ (new cls) (VStr name) data_path kw = Ok d
     ∧ (cls = ImageNetClass → name = "imagenet")
     ∧ (cls = RestrictedImageNetClass → name = "restricted_imagenet")
     ∧ (cls = CustomImageNetClass → name = "custom_imagenet"))
  ∨ cls = DataSetClass.
Proof.
  destruct cls; simpl.
  - by right.
  - intros (dp & kw & Hd%ImageNet_init_inv). left.
    eexists "imagenet", dp, _. by split_and!.
  - intros (dp & kw & Hd%Places365_init_inv). left.
    eexists "places365", dp, _. by split_and!.
  - intros (dp & kw & (m & _ & Hd)%RestrictedImageNet_init_inv). left.
    eexists "restricted_imagenet", dp, _. by split_and!.
  - intros (dp & g & kw & (m & _ & Hd)%CustomImageNet_init_inv). left.
    eexists "custom_imagenet", dp, _. by split_and!.
Qed.

(** X16: each entry of [DATASETS] names its class consistently: a descriptor
    built by the class registered under a name has that name as [ds_name],
    is an instance of that class, and hands that name to the loader as
    [dataset]. *)
Theorem DATASETS_names `{Collaborators} (name : string) (cls : klass) (d : object)
    (o : loader_options) :
  (name, cls) ∈ DATASETS → built_by cls d →
  class_of d = cls
  ∧ getattr d "ds_name" = Ok (VStr name)
  ∧ ∃ kw, DataSet.make_loaders_kwargs d o = Ok kw
      ∧ dict_get kw "dataset" = Some (VStr name).
Proof.
  intros Hin Hb.
  destruct (built_by_init _ _ Hb) as [(n & dp & kw & Hd & H1 & H2 & H3)| ->].
  - assert (n = name) as ->.
    { unfold DATASETS in Hin.
      repeat (apply elem_of_cons in Hin as [[= -> ->]|Hin]); auto.
      by apply elem_of_nil in Hin. }
    apply init_new in Hd as ->. split_and!; [reflexivity.. |].
    eexists. split; reflexivity.
  - unfold DATASETS in Hin.
    repeat (apply elem_of_cons in Hin as [[= _ ?]|Hin]); try discriminate.
    by apply elem_of_nil in Hin.
Qed.

Lemma DATASETS_names_witness :
  ∃ d, getattr d "ds_name" = Ok (VStr "restricted_imagenet")
     ∧ class_of d = RestrictedImageNetClass.
Proof.
  assert (Hb : ∃ d, RestrictedImageNet.__init__ (H := Sample.collaborators)
                      (new RestrictedImageNetClass) (VStr "/data/imagenet") [] = Ok d)
    by (eexists; vm_compute; reflexivity).
  destruct Hb as [d Hd]. exists d.
  destruct (DATASETS_names (H := Sample.collaborators) "restricted_imagenet"
              RestrictedImageNetClass d Sample.options) as (Hc & Hn & _).
  - by apply (bool_decide_unpack _).
  - simpl. eauto.
  - split; [exact Hn | exact Hc].
Defined.

(** ** The order of the keyword arguments *)

Lemma dict_get_Some_iff (d : dict) k v :
  wf_dict d → dict_get d k = Some v ↔ (k, v) ∈ d.
Proof.
  intros Hwf. split; [apply dict_get_Some_elem |].
  induction d as [|[k0 v0] d IH]; [by intros ?%elem_of_nil |].
  unfold wf_dict in *. rewrite dict_keys_cons in Hwf.
  apply NoDup_cons in Hwf as [Hk0 Hwf].
  intros [[= -> ->]|Hin]%elem_of_cons; simpl.
  - by rewrite decide_True.
  - rewrite decide_False; [by apply IH |].
    intros ->. apply Hk0. apply list_elem_of_fmap. by exists (k, v).
Qed.

Lemma dict_get_perm (d d' : dict) k :
  wf_dict d → d ≡ₚ d' → dict_get d k = dict_get d' k.
Proof.
  intros Hwf Hp.
  assert (Hwf' : wf_dict d').
  { unfold wf_dict, dict_keys in *. by rewrite <-Hp. }
  destruct (dict_get d k) as [v|] eqn:E.
  - symmetry. apply dict_get_Some_iff; [done |]. rewrite <-Hp.
    by apply dict_get_Some_iff.
  - symmetry. apply dict_get_None. apply dict_get_None in E.
    unfold dict_keys in *. by rewrite <-Hp.
Qed.

Lemma wf_dict_perm (d d' : dict) : wf_dict d → d ≡ₚ d' → wf_dict d'.
Proof. unfold wf_dict, dict_keys. intros Hwf Hp. by rewrite <-Hp. Qed.

Lemma init_perm_no_clash self ds_name data_path (kwargs kwargs' : dict) :
  wf_dict kwargs → kwargs ≡ₚ kwargs' →
  (∀ k, k ∈ dict_keys kwargs → k ∉ init_positional) →
  DataSet.__init__ self ds_name data_path kwargs
  = DataSet.__init__ self ds_name data_path kwargs'.
Proof.
  intros Hwf Hp Hb. unfold DataSet.__init__.
  assert (Hb' : ∀ k, k ∈ dict_keys kwargs' → k ∉ init_positional).
  { intros k Hk. apply Hb. unfold dict_keys in *. by rewrite Hp. }
  rewrite !bind_keywords_no_clash by done. unfold_result. cbv zeta.
  assert (Hkeys : (list_to_set (dict_keys kwargs) : gset string)
                  = list_to_set (dict_keys kwargs')).
  { apply list_to_set_perm_L. unfold dict_keys. by rewrite Hp. }
  assert (Hfinal : DataSet.final_kwargs kwargs = DataSet.final_kwargs kwargs').
  { unfold DataSet.final_kwargs. f_equal. apply list_fmap_ext.
    intros _ k _. by rewrite (dict_get_perm kwargs kwargs'). }
  by rewrite Hkeys, Hfinal.
Qed.

Lemma init_Ok_no_clash self ds_name data_path kwargs d :
  DataSet.__init__ self ds_name data_path kwargs = Ok d →
  ∀ k, k ∈ dict_keys kwargs → k ∉ init_positional.
Proof.
  intros [_ Hall]%init_Ok_keys k Hk%Hall Hpos. by apply positional_not_field in Hpos.
Qed.

(** X4: the descriptor [DataSet.__init__] builds does not depend on the
    order in which the keyword arguments are passed; nor does the error it
    raises when no keyword names [self], [ds_name] or [data_path]. *)
Theorem init_order_independent (self : object) (ds_name data_path : value)
    (kwargs kwargs' : dict) :
  wf_dict kwargs → kwargs ≡ₚ kwargs' →
  (∀ d, DataSet.__init__ self ds_name data_path kwargs = Ok d
        ↔ DataSet.__init__ self ds_name data_path kwargs' = Ok d)
  ∧ ((∀ k, k ∈ dict_keys kwargs → k ∉ init_positional) →
     DataSet.__init__ self ds_name data_path kwargs
     = DataSet.__init__ self ds_name data_path kwargs').
Proof.
  intros Hwf Hp. split; [|by apply init_perm_no_clash].
  intros d. split; intros Hd.
  - rewrite <-(init_perm_no_clash self ds_name data_path kwargs kwargs'); [done.. |].
    by apply (init_Ok_no_clash _ _ _ _ _ Hd).
  - rewrite <-(init_perm_no_clash self ds_name data_path kwargs' kwargs); [done | | |].
    + by apply (wf_dict_perm kwargs).
    + done.
    + by apply (init_Ok_no_clash _ _ _ _ _ Hd).
Qed.

Lemma init_order_independent_witness :
  DataSet.__init__ (new DataSetClass) (VStr "cifar") (VStr "/tmp/cifar")
    Sample.five_required
  = DataSet.__init__ (new DataSetClass) (VStr "cifar") (VStr "/tmp/cifar")
      (reverse Sample.five_required).
Proof.
  apply (init_order_independent (new DataSetClass) (VStr "cifar") (VStr "/tmp/cifar")
           Sample.five_required (reverse Sample.five_required)).
  - apply (bool_decide_unpack _). vm_compute. exact I.
  - symmetry. apply reverse_Permutation.
  - intros k Hk. vm_compute in Hk.
    repeat (apply elem_of_cons in Hk as [->|Hk]);
      [by apply (bool_decide_unpack _) .. | by apply elem_of_nil in Hk].
Defined.
